(** * The custom stemmer and lemmatizer of the stemming / lemmatization
      workshop notebook

    The notebook [stemming_lemmatization_workshop.ipynb] defines two small
    pure functions on Python strings:

    - [stem_word_custom]: lowercases a word and trims a fixed list of
      suffixes from its end, one after the other;
    - [lemmatize_word_custom]: lowercases a word and resolves it through a
      fixed dictionary of irregular forms, falling back to the lowercased
      word.

    Both only use built-ins of Python's [str] and [dict]: [str.lower],
    [str.endswith], slicing [word[:-n]], [len] and [dict.get].  A Python
    string is a sequence of Unicode code points, so it is modelled here as a
    list of code points, and [str.lower] / [str.upper] are modelled as
    CPython 3.11 implements them (the notebook's kernel is Python 3.11,
    Unicode 14.0): an ASCII fast path, the full (one-to-many) case mappings
    of the Unicode character database, and the Final_Sigma rule for
    U+03A3. *)

From Stdlib Require Import NArith String Ascii.
From stdpp Require Import base list gmap.

Open Scope N_scope.

(** ** Python strings *)

(** A [str] is a finite sequence of code points.  Code points are numbers
    below 0x110000; larger numbers have no entry in the tables below and
    are left alone by every operation, so the statements proved for all
    lists hold in particular for all strings. *)
Abbreviation codepoint := N (only parsing).
Abbreviation str := (list N) (only parsing).

(** A string literal of the source, as the sequence of its code points
    (all literals of the two functions are ASCII). *)
Definition lit (s : string) : str := N_of_ascii <$> list_ascii_of_string s.

(** ** Case data of the Unicode character database (version 14.0)

    The data CPython 3.11 compiles into [unicodetype_db.h] from
    [UnicodeData.txt], [SpecialCasing.txt] and [DerivedCoreProperties.txt].
    The single-code-point mappings are stored run-length encoded: a run
    [(k, v, n, step)] stands for the [n] entries
    [k + i * step |-> v + i * step], [i < n].  The mappings to more than one
    code point are listed apart.  A code point without an entry is mapped
    to itself. *)

Module UCD.

Definition lower_runs : list (N * N * N * N) := [
  (0x41, 0x61, 26, 1); (0xC0, 0xE0, 23, 1); (0xD8, 0xF8, 7, 1);
  (0x100, 0x101, 24, 2); (0x132, 0x133, 3, 2); (0x139, 0x13A, 8, 2);
  (0x14A, 0x14B, 23, 2); (0x178, 0xFF, 1, 1); (0x179, 0x17A, 3, 2);
  (0x181, 0x253, 1, 1); (0x182, 0x183, 2, 2); (0x186, 0x254, 1, 1);
  (0x187, 0x188, 1, 1); (0x189, 0x256, 2, 1); (0x18B, 0x18C, 1, 1);
  (0x18E, 0x1DD, 1, 1); (0x18F, 0x259, 1, 1); (0x190, 0x25B, 1, 1);
  (0x191, 0x192, 1, 1); (0x193, 0x260, 1, 1); (0x194, 0x263, 1, 1);
  (0x196, 0x269, 1, 1); (0x197, 0x268, 1, 1); (0x198, 0x199, 1, 1);
  (0x19C, 0x26F, 1, 1); (0x19D, 0x272, 1, 1); (0x19F, 0x275, 1, 1);
  (0x1A0, 0x1A1, 3, 2); (0x1A6, 0x280, 1, 1); (0x1A7, 0x1A8, 1, 1);
  (0x1A9, 0x283, 1, 1); (0x1AC, 0x1AD, 1, 1); (0x1AE, 0x288, 1, 1);
  (0x1AF, 0x1B0, 1, 1); (0x1B1, 0x28A, 2, 1); (0x1B3, 0x1B4, 2, 2);
  (0x1B7, 0x292, 1, 1); (0x1B8, 0x1B9, 1, 1); (0x1BC, 0x1BD, 1, 1);
  (0x1C4, 0x1C6, 1, 1); (0x1C5, 0x1C6, 1, 1); (0x1C7, 0x1C9, 1, 1);
  (0x1C8, 0x1C9, 1, 1); (0x1CA, 0x1CC, 1, 1); (0x1CB, 0x1CC, 9, 2);
  (0x1DE, 0x1DF, 9, 2); (0x1F1, 0x1F3, 1, 1); (0x1F2, 0x1F3, 2, 2);
  (0x1F6, 0x195, 1, 1); (0x1F7, 0x1BF, 1, 1); (0x1F8, 0x1F9, 20, 2);
  (0x220, 0x19E, 1, 1); (0x222, 0x223, 9, 2); (0x23A, 0x2C65, 1, 1);
  (0x23B, 0x23C, 1, 1); (0x23D, 0x19A, 1, 1); (0x23E, 0x2C66, 1, 1);
  (0x241, 0x242, 1, 1); (0x243, 0x180, 1, 1); (0x244, 0x289, 1, 1);
  (0x245, 0x28C, 1, 1); (0x246, 0x247, 5, 2); (0x370, 0x371, 2, 2);
  (0x376, 0x377, 1, 1); (0x37F, 0x3F3, 1, 1); (0x386, 0x3AC, 1, 1);
  (0x388, 0x3AD, 3, 1); (0x38C, 0x3CC, 1, 1); (0x38E, 0x3CD, 2, 1);
  (0x391, 0x3B1, 17, 1); (0x3A3, 0x3C3, 9, 1); (0x3CF, 0x3D7, 1, 1);
  (0x3D8, 0x3D9, 12, 2); (0x3F4, 0x3B8, 1, 1); (0x3F7, 0x3F8, 1, 1);
  (0x3F9, 0x3F2, 1, 1); (0x3FA, 0x3FB, 1, 1); (0x3FD, 0x37B, 3, 1);
  (0x400, 0x450, 16, 1); (0x410, 0x430, 32, 1); (0x460, 0x461, 17, 2);
  (0x48A, 0x48B, 27, 2); (0x4C0, 0x4CF, 1, 1); (0x4C1, 0x4C2, 7, 2);
  (0x4D0, 0x4D1, 48, 2); (0x531, 0x561, 38, 1); (0x10A0, 0x2D00, 38, 1);
  (0x10C7, 0x2D27, 1, 1); (0x10CD, 0x2D2D, 1, 1); (0x13A0, 0xAB70, 80, 1);
  (0x13F0, 0x13F8, 6, 1); (0x1C90, 0x10D0, 43, 1); (0x1CBD, 0x10FD, 3, 1);
  (0x1E00, 0x1E01, 75, 2); (0x1E9E, 0xDF, 1, 1); (0x1EA0, 0x1EA1, 48, 2);
  (0x1F08, 0x1F00, 8, 1); (0x1F18, 0x1F10, 6, 1); (0x1F28, 0x1F20, 8, 1);
  (0x1F38, 0x1F30, 8, 1); (0x1F48, 0x1F40, 6, 1); (0x1F59, 0x1F51, 4, 2);
  (0x1F68, 0x1F60, 8, 1); (0x1F88, 0x1F80, 8, 1); (0x1F98, 0x1F90, 8, 1);
  (0x1FA8, 0x1FA0, 8, 1); (0x1FB8, 0x1FB0, 2, 1); (0x1FBA, 0x1F70, 2, 1);
  (0x1FBC, 0x1FB3, 1, 1); (0x1FC8, 0x1F72, 4, 1); (0x1FCC, 0x1FC3, 1, 1);
  (0x1FD8, 0x1FD0, 2, 1); (0x1FDA, 0x1F76, 2, 1); (0x1FE8, 0x1FE0, 2, 1);
  (0x1FEA, 0x1F7A, 2, 1); (0x1FEC, 0x1FE5, 1, 1); (0x1FF8, 0x1F78, 2, 1);
  (0x1FFA, 0x1F7C, 2, 1); (0x1FFC, 0x1FF3, 1, 1); (0x2126, 0x3C9, 1, 1);
  (0x212A, 0x6B, 1, 1); (0x212B, 0xE5, 1, 1); (0x2132, 0x214E, 1, 1);
  (0x2160, 0x2170, 16, 1); (0x2183, 0x2184, 1, 1); (0x24B6, 0x24D0, 26, 1);
  (0x2C00, 0x2C30, 48, 1); (0x2C60, 0x2C61, 1, 1); (0x2C62, 0x26B, 1, 1);
  (0x2C63, 0x1D7D, 1, 1); (0x2C64, 0x27D, 1, 1); (0x2C67, 0x2C68, 3, 2);
  (0x2C6D, 0x251, 1, 1); (0x2C6E, 0x271, 1, 1); (0x2C6F, 0x250, 1, 1);
  (0x2C70, 0x252, 1, 1); (0x2C72, 0x2C73, 1, 1); (0x2C75, 0x2C76, 1, 1);
  (0x2C7E, 0x23F, 2, 1); (0x2C80, 0x2C81, 50, 2); (0x2CEB, 0x2CEC, 2, 2);
  (0x2CF2, 0x2CF3, 1, 1); (0xA640, 0xA641, 23, 2); (0xA680, 0xA681, 14, 2);
  (0xA722, 0xA723, 7, 2); (0xA732, 0xA733, 31, 2); (0xA779, 0xA77A, 2, 2);
  (0xA77D, 0x1D79, 1, 1); (0xA77E, 0xA77F, 5, 2); (0xA78B, 0xA78C, 1, 1);
  (0xA78D, 0x265, 1, 1); (0xA790, 0xA791, 2, 2); (0xA796, 0xA797, 10, 2);
  (0xA7AA, 0x266, 1, 1); (0xA7AB, 0x25C, 1, 1); (0xA7AC, 0x261, 1, 1);
  (0xA7AD, 0x26C, 1, 1); (0xA7AE, 0x26A, 1, 1); (0xA7B0, 0x29E, 1, 1);
  (0xA7B1, 0x287, 1, 1); (0xA7B2, 0x29D, 1, 1); (0xA7B3, 0xAB53, 1, 1);
  (0xA7B4, 0xA7B5, 8, 2); (0xA7C4, 0xA794, 1, 1); (0xA7C5, 0x282, 1, 1);
  (0xA7C6, 0x1D8E, 1, 1); (0xA7C7, 0xA7C8, 2, 2); (0xA7D0, 0xA7D1, 1, 1);
  (0xA7D6, 0xA7D7, 2, 2); (0xA7F5, 0xA7F6, 1, 1); (0xFF21, 0xFF41, 26, 1);
  (0x10400, 0x10428, 40, 1); (0x104B0, 0x104D8, 36, 1); (0x10570, 0x10597, 11, 1);
  (0x1057C, 0x105A3, 15, 1); (0x1058C, 0x105B3, 7, 1); (0x10594, 0x105BB, 2, 1);
  (0x10C80, 0x10CC0, 51, 1); (0x118A0, 0x118C0, 32, 1); (0x16E40, 0x16E60, 32, 1);
  (0x1E900, 0x1E922, 34, 1) ].

Definition lower_special : list (N * list N) := [
  (0x130, [0x69; 0x307]) ].

Definition upper_runs : list (N * N * N * N) := [
  (0x61, 0x41, 26, 1); (0xB5, 0x39C, 1, 1); (0xE0, 0xC0, 23, 1);
  (0xF8, 0xD8, 7, 1); (0xFF, 0x178, 1, 1); (0x101, 0x100, 24, 2);
  (0x131, 0x49, 1, 1); (0x133, 0x132, 3, 2); (0x13A, 0x139, 8, 2);
  (0x14B, 0x14A, 23, 2); (0x17A, 0x179, 3, 2); (0x17F, 0x53, 1, 1);
  (0x180, 0x243, 1, 1); (0x183, 0x182, 2, 2); (0x188, 0x187, 1, 1);
  (0x18C, 0x18B, 1, 1); (0x192, 0x191, 1, 1); (0x195, 0x1F6, 1, 1);
  (0x199, 0x198, 1, 1); (0x19A, 0x23D, 1, 1); (0x19E, 0x220, 1, 1);
  (0x1A1, 0x1A0, 3, 2); (0x1A8, 0x1A7, 1, 1); (0x1AD, 0x1AC, 1, 1);
  (0x1B0, 0x1AF, 1, 1); (0x1B4, 0x1B3, 2, 2); (0x1B9, 0x1B8, 1, 1);
  (0x1BD, 0x1BC, 1, 1); (0x1BF, 0x1F7, 1, 1); (0x1C5, 0x1C4, 1, 1);
  (0x1C6, 0x1C4, 1, 1); (0x1C8, 0x1C7, 1, 1); (0x1C9, 0x1C7, 1, 1);
  (0x1CB, 0x1CA, 1, 1); (0x1CC, 0x1CA, 1, 1); (0x1CE, 0x1CD, 8, 2);
  (0x1DD, 0x18E, 1, 1); (0x1DF, 0x1DE, 9, 2); (0x1F2, 0x1F1, 1, 1);
  (0x1F3, 0x1F1, 1, 1); (0x1F5, 0x1F4, 1, 1); (0x1F9, 0x1F8, 20, 2);
  (0x223, 0x222, 9, 2); (0x23C, 0x23B, 1, 1); (0x23F, 0x2C7E, 2, 1);
  (0x242, 0x241, 1, 1); (0x247, 0x246, 5, 2); (0x250, 0x2C6F, 1, 1);
  (0x251, 0x2C6D, 1, 1); (0x252, 0x2C70, 1, 1); (0x253, 0x181, 1, 1);
  (0x254, 0x186, 1, 1); (0x256, 0x189, 2, 1); (0x259, 0x18F, 1, 1);
  (0x25B, 0x190, 1, 1); (0x25C, 0xA7AB, 1, 1); (0x260, 0x193, 1, 1);
  (0x261, 0xA7AC, 1, 1); (0x263, 0x194, 1, 1); (0x265, 0xA78D, 1, 1);
  (0x266, 0xA7AA, 1, 1); (0x268, 0x197, 1, 1); (0x269, 0x196, 1, 1);
  (0x26A, 0xA7AE, 1, 1); (0x26B, 0x2C62, 1, 1); (0x26C, 0xA7AD, 1, 1);
  (0x26F, 0x19C, 1, 1); (0x271, 0x2C6E, 1, 1); (0x272, 0x19D, 1, 1);
  (0x275, 0x19F, 1, 1); (0x27D, 0x2C64, 1, 1); (0x280, 0x1A6, 1, 1);
  (0x282, 0xA7C5, 1, 1); (0x283, 0x1A9, 1, 1); (0x287, 0xA7B1, 1, 1);
  (0x288, 0x1AE, 1, 1); (0x289, 0x244, 1, 1); (0x28A, 0x1B1, 2, 1);
  (0x28C, 0x245, 1, 1); (0x292, 0x1B7, 1, 1); (0x29D, 0xA7B2, 1, 1);
  (0x29E, 0xA7B0, 1, 1); (0x345, 0x399, 1, 1); (0x371, 0x370, 2, 2);
  (0x377, 0x376, 1, 1); (0x37B, 0x3FD, 3, 1); (0x3AC, 0x386, 1, 1);
  (0x3AD, 0x388, 3, 1); (0x3B1, 0x391, 17, 1); (0x3C2, 0x3A3, 1, 1);
  (0x3C3, 0x3A3, 9, 1); (0x3CC, 0x38C, 1, 1); (0x3CD, 0x38E, 2, 1);
  (0x3D0, 0x392, 1, 1); (0x3D1, 0x398, 1, 1); (0x3D5, 0x3A6, 1, 1);
  (0x3D6, 0x3A0, 1, 1); (0x3D7, 0x3CF, 1, 1); (0x3D9, 0x3D8, 12, 2);
  (0x3F0, 0x39A, 1, 1); (0x3F1, 0x3A1, 1, 1); (0x3F2, 0x3F9, 1, 1);
  (0x3F3, 0x37F, 1, 1); (0x3F5, 0x395, 1, 1); (0x3F8, 0x3F7, 1, 1);
  (0x3FB, 0x3FA, 1, 1); (0x430, 0x410, 32, 1); (0x450, 0x400, 16, 1);
  (0x461, 0x460, 17, 2); (0x48B, 0x48A, 27, 2); (0x4C2, 0x4C1, 7, 2);
  (0x4CF, 0x4C0, 1, 1); (0x4D1, 0x4D0, 48, 2); (0x561, 0x531, 38, 1);
  (0x10D0, 0x1C90, 43, 1); (0x10FD, 0x1CBD, 3, 1); (0x13F8, 0x13F0, 6, 1);
  (0x1C80, 0x412, 1, 1); (0x1C81, 0x414, 1, 1); (0x1C82, 0x41E, 1, 1);
  (0x1C83, 0x421, 2, 1); (0x1C85, 0x422, 1, 1); (0x1C86, 0x42A, 1, 1);
  (0x1C87, 0x462, 1, 1); (0x1C88, 0xA64A, 1, 1); (0x1D79, 0xA77D, 1, 1);
  (0x1D7D, 0x2C63, 1, 1); (0x1D8E, 0xA7C6, 1, 1); (0x1E01, 0x1E00, 75, 2);
  (0x1E9B, 0x1E60, 1, 1); (0x1EA1, 0x1EA0, 48, 2); (0x1F00, 0x1F08, 8, 1);
  (0x1F10, 0x1F18, 6, 1); (0x1F20, 0x1F28, 8, 1); (0x1F30, 0x1F38, 8, 1);
  (0x1F40, 0x1F48, 6, 1); (0x1F51, 0x1F59, 4, 2); (0x1F60, 0x1F68, 8, 1);
  (0x1F70, 0x1FBA, 2, 1); (0x1F72, 0x1FC8, 4, 1); (0x1F76, 0x1FDA, 2, 1);
  (0x1F78, 0x1FF8, 2, 1); (0x1F7A, 0x1FEA, 2, 1); (0x1F7C, 0x1FFA, 2, 1);
  (0x1FB0, 0x1FB8, 2, 1); (0x1FBE, 0x399, 1, 1); (0x1FD0, 0x1FD8, 2, 1);
  (0x1FE0, 0x1FE8, 2, 1); (0x1FE5, 0x1FEC, 1, 1); (0x214E, 0x2132, 1, 1);
  (0x2170, 0x2160, 16, 1); (0x2184, 0x2183, 1, 1); (0x24D0, 0x24B6, 26, 1);
  (0x2C30, 0x2C00, 48, 1); (0x2C61, 0x2C60, 1, 1); (0x2C65, 0x23A, 1, 1);
  (0x2C66, 0x23E, 1, 1); (0x2C68, 0x2C67, 3, 2); (0x2C73, 0x2C72, 1, 1);
  (0x2C76, 0x2C75, 1, 1); (0x2C81, 0x2C80, 50, 2); (0x2CEC, 0x2CEB, 2, 2);
  (0x2CF3, 0x2CF2, 1, 1); (0x2D00, 0x10A0, 38, 1); (0x2D27, 0x10C7, 1, 1);
  (0x2D2D, 0x10CD, 1, 1); (0xA641, 0xA640, 23, 2); (0xA681, 0xA680, 14, 2);
  (0xA723, 0xA722, 7, 2); (0xA733, 0xA732, 31, 2); (0xA77A, 0xA779, 2, 2);
  (0xA77F, 0xA77E, 5, 2); (0xA78C, 0xA78B, 1, 1); (0xA791, 0xA790, 2, 2);
  (0xA794, 0xA7C4, 1, 1); (0xA797, 0xA796, 10, 2); (0xA7B5, 0xA7B4, 8, 2);
  (0xA7C8, 0xA7C7, 2, 2); (0xA7D1, 0xA7D0, 1, 1); (0xA7D7, 0xA7D6, 2, 2);
  (0xA7F6, 0xA7F5, 1, 1); (0xAB53, 0xA7B3, 1, 1); (0xAB70, 0x13A0, 80, 1);
  (0xFF41, 0xFF21, 26, 1); (0x10428, 0x10400, 40, 1); (0x104D8, 0x104B0, 36, 1);
  (0x10597, 0x10570, 11, 1); (0x105A3, 0x1057C, 15, 1); (0x105B3, 0x1058C, 7, 1);
  (0x105BB, 0x10594, 2, 1); (0x10CC0, 0x10C80, 51, 1); (0x118C0, 0x118A0, 32, 1);
  (0x16E60, 0x16E40, 32, 1); (0x1E922, 0x1E900, 34, 1) ].

Definition upper_special : list (N * list N) := [
  (0xDF, [0x53; 0x53]); (0x149, [0x2BC; 0x4E]); (0x1F0, [0x4A; 0x30C]);
  (0x390, [0x399; 0x308; 0x301]); (0x3B0, [0x3A5; 0x308; 0x301]); (0x587, [0x535; 0x552]);
  (0x1E96, [0x48; 0x331]); (0x1E97, [0x54; 0x308]); (0x1E98, [0x57; 0x30A]);
  (0x1E99, [0x59; 0x30A]); (0x1E9A, [0x41; 0x2BE]); (0x1F50, [0x3A5; 0x313]);
  (0x1F52, [0x3A5; 0x313; 0x300]); (0x1F54, [0x3A5; 0x313; 0x301]); (0x1F56, [0x3A5; 0x313; 0x342]);
  (0x1F80, [0x1F08; 0x399]); (0x1F81, [0x1F09; 0x399]); (0x1F82, [0x1F0A; 0x399]);
  (0x1F83, [0x1F0B; 0x399]); (0x1F84, [0x1F0C; 0x399]); (0x1F85, [0x1F0D; 0x399]);
  (0x1F86, [0x1F0E; 0x399]); (0x1F87, [0x1F0F; 0x399]); (0x1F88, [0x1F08; 0x399]);
  (0x1F89, [0x1F09; 0x399]); (0x1F8A, [0x1F0A; 0x399]); (0x1F8B, [0x1F0B; 0x399]);
  (0x1F8C, [0x1F0C; 0x399]); (0x1F8D, [0x1F0D; 0x399]); (0x1F8E, [0x1F0E; 0x399]);
  (0x1F8F, [0x1F0F; 0x399]); (0x1F90, [0x1F28; 0x399]); (0x1F91, [0x1F29; 0x399]);
  (0x1F92, [0x1F2A; 0x399]); (0x1F93, [0x1F2B; 0x399]); (0x1F94, [0x1F2C; 0x399]);
  (0x1F95, [0x1F2D; 0x399]); (0x1F96, [0x1F2E; 0x399]); (0x1F97, [0x1F2F; 0x399]);
  (0x1F98, [0x1F28; 0x399]); (0x1F99, [0x1F29; 0x399]); (0x1F9A, [0x1F2A; 0x399]);
  (0x1F9B, [0x1F2B; 0x399]); (0x1F9C, [0x1F2C; 0x399]); (0x1F9D, [0x1F2D; 0x399]);
  (0x1F9E, [0x1F2E; 0x399]); (0x1F9F, [0x1F2F; 0x399]); (0x1FA0, [0x1F68; 0x399]);
  (0x1FA1, [0x1F69; 0x399]); (0x1FA2, [0x1F6A; 0x399]); (0x1FA3, [0x1F6B; 0x399]);
  (0x1FA4, [0x1F6C; 0x399]); (0x1FA5, [0x1F6D; 0x399]); (0x1FA6, [0x1F6E; 0x399]);
  (0x1FA7, [0x1F6F; 0x399]); (0x1FA8, [0x1F68; 0x399]); (0x1FA9, [0x1F69; 0x399]);
  (0x1FAA, [0x1F6A; 0x399]); (0x1FAB, [0x1F6B; 0x399]); (0x1FAC, [0x1F6C; 0x399]);
  (0x1FAD, [0x1F6D; 0x399]); (0x1FAE, [0x1F6E; 0x399]); (0x1FAF, [0x1F6F; 0x399]);
  (0x1FB2, [0x1FBA; 0x399]); (0x1FB3, [0x391; 0x399]); (0x1FB4, [0x386; 0x399]);
  (0x1FB6, [0x391; 0x342]); (0x1FB7, [0x391; 0x342; 0x399]); (0x1FBC, [0x391; 0x399]);
  (0x1FC2, [0x1FCA; 0x399]); (0x1FC3, [0x397; 0x399]); (0x1FC4, [0x389; 0x399]);
  (0x1FC6, [0x397; 0x342]); (0x1FC7, [0x397; 0x342; 0x399]); (0x1FCC, [0x397; 0x399]);
  (0x1FD2, [0x399; 0x308; 0x300]); (0x1FD3, [0x399; 0x308; 0x301]); (0x1FD6, [0x399; 0x342]);
  (0x1FD7, [0x399; 0x308; 0x342]); (0x1FE2, [0x3A5; 0x308; 0x300]); (0x1FE3, [0x3A5; 0x308; 0x301]);
  (0x1FE4, [0x3A1; 0x313]); (0x1FE6, [0x3A5; 0x342]); (0x1FE7, [0x3A5; 0x308; 0x342]);
  (0x1FF2, [0x1FFA; 0x399]); (0x1FF3, [0x3A9; 0x399]); (0x1FF4, [0x38F; 0x399]);
  (0x1FF6, [0x3A9; 0x342]); (0x1FF7, [0x3A9; 0x342; 0x399]); (0x1FFC, [0x3A9; 0x399]);
  (0xFB00, [0x46; 0x46]); (0xFB01, [0x46; 0x49]); (0xFB02, [0x46; 0x4C]);
  (0xFB03, [0x46; 0x46; 0x49]); (0xFB04, [0x46; 0x46; 0x4C]); (0xFB05, [0x53; 0x54]);
  (0xFB06, [0x53; 0x54]); (0xFB13, [0x544; 0x546]); (0xFB14, [0x544; 0x535]);
  (0xFB15, [0x544; 0x53B]); (0xFB16, [0x54E; 0x546]); (0xFB17, [0x544; 0x53D]) ].

(** Code points with the derived property Cased, and those with the
    property Case_Ignorable, as inclusive ranges. *)
Definition cased_ranges : list (N * N) := [
  (0x41, 0x5A); (0x61, 0x7A); (0xAA, 0xAA); (0xB5, 0xB5);
  (0xBA, 0xBA); (0xC0, 0xD6); (0xD8, 0xF6); (0xF8, 0x1BA);
  (0x1BC, 0x1BF); (0x1C4, 0x293); (0x295, 0x2B8); (0x2C0, 0x2C1);
  (0x2E0, 0x2E4); (0x345, 0x345); (0x370, 0x373); (0x376, 0x377);
  (0x37A, 0x37D); (0x37F, 0x37F); (0x386, 0x386); (0x388, 0x38A);
  (0x38C, 0x38C); (0x38E, 0x3A1); (0x3A3, 0x3F5); (0x3F7, 0x481);
  (0x48A, 0x52F); (0x531, 0x556); (0x560, 0x588); (0x10A0, 0x10C5);
  (0x10C7, 0x10C7); (0x10CD, 0x10CD); (0x10D0, 0x10FA); (0x10FD, 0x10FF);
  (0x13A0, 0x13F5); (0x13F8, 0x13FD); (0x1C80, 0x1C88); (0x1C90, 0x1CBA);
  (0x1CBD, 0x1CBF); (0x1D00, 0x1DBF); (0x1E00, 0x1F15); (0x1F18, 0x1F1D);
  (0x1F20, 0x1F45); (0x1F48, 0x1F4D); (0x1F50, 0x1F57); (0x1F59, 0x1F59);
  (0x1F5B, 0x1F5B); (0x1F5D, 0x1F5D); (0x1F5F, 0x1F7D); (0x1F80, 0x1FB4);
  (0x1FB6, 0x1FBC); (0x1FBE, 0x1FBE); (0x1FC2, 0x1FC4); (0x1FC6, 0x1FCC);
  (0x1FD0, 0x1FD3); (0x1FD6, 0x1FDB); (0x1FE0, 0x1FEC); (0x1FF2, 0x1FF4);
  (0x1FF6, 0x1FFC); (0x2071, 0x2071); (0x207F, 0x207F); (0x2090, 0x209C);
  (0x2102, 0x2102); (0x2107, 0x2107); (0x210A, 0x2113); (0x2115, 0x2115);
  (0x2119, 0x211D); (0x2124, 0x2124); (0x2126, 0x2126); (0x2128, 0x2128);
  (0x212A, 0x212D); (0x212F, 0x2134); (0x2139, 0x2139); (0x213C, 0x213F);
  (0x2145, 0x2149); (0x214E, 0x214E); (0x2160, 0x217F); (0x2183, 0x2184);
  (0x24B6, 0x24E9); (0x2C00, 0x2CE4); (0x2CEB, 0x2CEE); (0x2CF2, 0x2CF3);
  (0x2D00, 0x2D25); (0x2D27, 0x2D27); (0x2D2D, 0x2D2D); (0xA640, 0xA66D);
  (0xA680, 0xA69D); (0xA722, 0xA787); (0xA78B, 0xA78E); (0xA790, 0xA7CA);
  (0xA7D0, 0xA7D1); (0xA7D3, 0xA7D3); (0xA7D5, 0xA7D9); (0xA7F5, 0xA7F6);
  (0xA7F8, 0xA7FA); (0xAB30, 0xAB5A); (0xAB5C, 0xAB68); (0xAB70, 0xABBF);
  (0xFB00, 0xFB06); (0xFB13, 0xFB17); (0xFF21, 0xFF3A); (0xFF41, 0xFF5A);
  (0x10400, 0x1044F); (0x104B0, 0x104D3); (0x104D8, 0x104FB); (0x10570, 0x1057A);
  (0x1057C, 0x1058A); (0x1058C, 0x10592); (0x10594, 0x10595); (0x10597, 0x105A1);
  (0x105A3, 0x105B1); (0x105B3, 0x105B9); (0x105BB, 0x105BC); (0x10780, 0x10780);
  (0x10783, 0x10785); (0x10787, 0x107B0); (0x107B2, 0x107BA); (0x10C80, 0x10CB2);
  (0x10CC0, 0x10CF2); (0x118A0, 0x118DF); (0x16E40, 0x16E7F); (0x1D400, 0x1D454);
  (0x1D456, 0x1D49C); (0x1D49E, 0x1D49F); (0x1D4A2, 0x1D4A2); (0x1D4A5, 0x1D4A6);
  (0x1D4A9, 0x1D4AC); (0x1D4AE, 0x1D4B9); (0x1D4BB, 0x1D4BB); (0x1D4BD, 0x1D4C3);
  (0x1D4C5, 0x1D505); (0x1D507, 0x1D50A); (0x1D50D, 0x1D514); (0x1D516, 0x1D51C);
  (0x1D51E, 0x1D539); (0x1D53B, 0x1D53E); (0x1D540, 0x1D544); (0x1D546, 0x1D546);
  (0x1D54A, 0x1D550); (0x1D552, 0x1D6A5); (0x1D6A8, 0x1D6C0); (0x1D6C2, 0x1D6DA);
  (0x1D6DC, 0x1D6FA); (0x1D6FC, 0x1D714); (0x1D716, 0x1D734); (0x1D736, 0x1D74E);
  (0x1D750, 0x1D76E); (0x1D770, 0x1D788); (0x1D78A, 0x1D7A8); (0x1D7AA, 0x1D7C2);
  (0x1D7C4, 0x1D7CB); (0x1DF00, 0x1DF09); (0x1DF0B, 0x1DF1E); (0x1E900, 0x1E943);
  (0x1F130, 0x1F149); (0x1F150, 0x1F169); (0x1F170, 0x1F189) ].

Definition case_ignorable_ranges : list (N * N) := [
  (0x27, 0x27); (0x2E, 0x2E); (0x3A, 0x3A); (0x5E, 0x5E);
  (0x60, 0x60); (0xA8, 0xA8); (0xAD, 0xAD); (0xAF, 0xAF);
  (0xB4, 0xB4); (0xB7, 0xB8); (0x2B0, 0x36F); (0x374, 0x375);
  (0x37A, 0x37A); (0x384, 0x385); (0x387, 0x387); (0x483, 0x489);
  (0x559, 0x559); (0x55F, 0x55F); (0x591, 0x5BD); (0x5BF, 0x5BF);
  (0x5C1, 0x5C2); (0x5C4, 0x5C5); (0x5C7, 0x5C7); (0x5F4, 0x5F4);
  (0x600, 0x605); (0x610, 0x61A); (0x61C, 0x61C); (0x640, 0x640);
  (0x64B, 0x65F); (0x670, 0x670); (0x6D6, 0x6DD); (0x6DF, 0x6E8);
  (0x6EA, 0x6ED); (0x70F, 0x70F); (0x711, 0x711); (0x730, 0x74A);
  (0x7A6, 0x7B0); (0x7EB, 0x7F5); (0x7FA, 0x7FA); (0x7FD, 0x7FD);
  (0x816, 0x82D); (0x859, 0x85B); (0x888, 0x888); (0x890, 0x891);
  (0x898, 0x89F); (0x8C9, 0x902); (0x93A, 0x93A); (0x93C, 0x93C);
  (0x941, 0x948); (0x94D, 0x94D); (0x951, 0x957); (0x962, 0x963);
  (0x971, 0x971); (0x981, 0x981); (0x9BC, 0x9BC); (0x9C1, 0x9C4);
  (0x9CD, 0x9CD); (0x9E2, 0x9E3); (0x9FE, 0x9FE); (0xA01, 0xA02);
  (0xA3C, 0xA3C); (0xA41, 0xA42); (0xA47, 0xA48); (0xA4B, 0xA4D);
  (0xA51, 0xA51); (0xA70, 0xA71); (0xA75, 0xA75); (0xA81, 0xA82);
  (0xABC, 0xABC); (0xAC1, 0xAC5); (0xAC7, 0xAC8); (0xACD, 0xACD);
  (0xAE2, 0xAE3); (0xAFA, 0xAFF); (0xB01, 0xB01); (0xB3C, 0xB3C);
  (0xB3F, 0xB3F); (0xB41, 0xB44); (0xB4D, 0xB4D); (0xB55, 0xB56);
  (0xB62, 0xB63); (0xB82, 0xB82); (0xBC0, 0xBC0); (0xBCD, 0xBCD);
  (0xC00, 0xC00); (0xC04, 0xC04); (0xC3C, 0xC3C); (0xC3E, 0xC40);
  (0xC46, 0xC48); (0xC4A, 0xC4D); (0xC55, 0xC56); (0xC62, 0xC63);
  (0xC81, 0xC81); (0xCBC, 0xCBC); (0xCBF, 0xCBF); (0xCC6, 0xCC6);
  (0xCCC, 0xCCD); (0xCE2, 0xCE3); (0xD00, 0xD01); (0xD3B, 0xD3C);
  (0xD41, 0xD44); (0xD4D, 0xD4D); (0xD62, 0xD63); (0xD81, 0xD81);
  (0xDCA, 0xDCA); (0xDD2, 0xDD4); (0xDD6, 0xDD6); (0xE31, 0xE31);
  (0xE34, 0xE3A); (0xE46, 0xE4E); (0xEB1, 0xEB1); (0xEB4, 0xEBC);
  (0xEC6, 0xEC6); (0xEC8, 0xECD); (0xF18, 0xF19); (0xF35, 0xF35);
  (0xF37, 0xF37); (0xF39, 0xF39); (0xF71, 0xF7E); (0xF80, 0xF84);
  (0xF86, 0xF87); (0xF8D, 0xF97); (0xF99, 0xFBC); (0xFC6, 0xFC6);
  (0x102D, 0x1030); (0x1032, 0x1037); (0x1039, 0x103A); (0x103D, 0x103E);
  (0x1058, 0x1059); (0x105E, 0x1060); (0x1071, 0x1074); (0x1082, 0x1082);
  (0x1085, 0x1086); (0x108D, 0x108D); (0x109D, 0x109D); (0x10FC, 0x10FC);
  (0x135D, 0x135F); (0x1712, 0x1714); (0x1732, 0x1733); (0x1752, 0x1753);
  (0x1772, 0x1773); (0x17B4, 0x17B5); (0x17B7, 0x17BD); (0x17C6, 0x17C6);
  (0x17C9, 0x17D3); (0x17D7, 0x17D7); (0x17DD, 0x17DD); (0x180B, 0x180F);
  (0x1843, 0x1843); (0x1885, 0x1886); (0x18A9, 0x18A9); (0x1920, 0x1922);
  (0x1927, 0x1928); (0x1932, 0x1932); (0x1939, 0x193B); (0x1A17, 0x1A18);
  (0x1A1B, 0x1A1B); (0x1A56, 0x1A56); (0x1A58, 0x1A5E); (0x1A60, 0x1A60);
  (0x1A62, 0x1A62); (0x1A65, 0x1A6C); (0x1A73, 0x1A7C); (0x1A7F, 0x1A7F);
  (0x1AA7, 0x1AA7); (0x1AB0, 0x1ACE); (0x1B00, 0x1B03); (0x1B34, 0x1B34);
  (0x1B36, 0x1B3A); (0x1B3C, 0x1B3C); (0x1B42, 0x1B42); (0x1B6B, 0x1B73);
  (0x1B80, 0x1B81); (0x1BA2, 0x1BA5); (0x1BA8, 0x1BA9); (0x1BAB, 0x1BAD);
  (0x1BE6, 0x1BE6); (0x1BE8, 0x1BE9); (0x1BED, 0x1BED); (0x1BEF, 0x1BF1);
  (0x1C2C, 0x1C33); (0x1C36, 0x1C37); (0x1C78, 0x1C7D); (0x1CD0, 0x1CD2);
  (0x1CD4, 0x1CE0); (0x1CE2, 0x1CE8); (0x1CED, 0x1CED); (0x1CF4, 0x1CF4);
  (0x1CF8, 0x1CF9); (0x1D2C, 0x1D6A); (0x1D78, 0x1D78); (0x1D9B, 0x1DFF);
  (0x1FBD, 0x1FBD); (0x1FBF, 0x1FC1); (0x1FCD, 0x1FCF); (0x1FDD, 0x1FDF);
  (0x1FED, 0x1FEF); (0x1FFD, 0x1FFE); (0x200B, 0x200F); (0x2018, 0x2019);
  (0x2024, 0x2024); (0x2027, 0x2027); (0x202A, 0x202E); (0x2060, 0x2064);
  (0x2066, 0x206F); (0x2071, 0x2071); (0x207F, 0x207F); (0x2090, 0x209C);
  (0x20D0, 0x20F0); (0x2C7C, 0x2C7D); (0x2CEF, 0x2CF1); (0x2D6F, 0x2D6F);
  (0x2D7F, 0x2D7F); (0x2DE0, 0x2DFF); (0x2E2F, 0x2E2F); (0x3005, 0x3005);
  (0x302A, 0x302D); (0x3031, 0x3035); (0x303B, 0x303B); (0x3099, 0x309E);
  (0x30FC, 0x30FE); (0xA015, 0xA015); (0xA4F8, 0xA4FD); (0xA60C, 0xA60C);
  (0xA66F, 0xA672); (0xA674, 0xA67D); (0xA67F, 0xA67F); (0xA69C, 0xA69F);
  (0xA6F0, 0xA6F1); (0xA700, 0xA721); (0xA770, 0xA770); (0xA788, 0xA78A);
  (0xA7F2, 0xA7F4); (0xA7F8, 0xA7F9); (0xA802, 0xA802); (0xA806, 0xA806);
  (0xA80B, 0xA80B); (0xA825, 0xA826); (0xA82C, 0xA82C); (0xA8C4, 0xA8C5);
  (0xA8E0, 0xA8F1); (0xA8FF, 0xA8FF); (0xA926, 0xA92D); (0xA947, 0xA951);
  (0xA980, 0xA982); (0xA9B3, 0xA9B3); (0xA9B6, 0xA9B9); (0xA9BC, 0xA9BD);
  (0xA9CF, 0xA9CF); (0xA9E5, 0xA9E6); (0xAA29, 0xAA2E); (0xAA31, 0xAA32);
  (0xAA35, 0xAA36); (0xAA43, 0xAA43); (0xAA4C, 0xAA4C); (0xAA70, 0xAA70);
  (0xAA7C, 0xAA7C); (0xAAB0, 0xAAB0); (0xAAB2, 0xAAB4); (0xAAB7, 0xAAB8);
  (0xAABE, 0xAABF); (0xAAC1, 0xAAC1); (0xAADD, 0xAADD); (0xAAEC, 0xAAED);
  (0xAAF3, 0xAAF4); (0xAAF6, 0xAAF6); (0xAB5B, 0xAB5F); (0xAB69, 0xAB6B);
  (0xABE5, 0xABE5); (0xABE8, 0xABE8); (0xABED, 0xABED); (0xFB1E, 0xFB1E);
  (0xFBB2, 0xFBC2); (0xFE00, 0xFE0F); (0xFE13, 0xFE13); (0xFE20, 0xFE2F);
  (0xFE52, 0xFE52); (0xFE55, 0xFE55); (0xFEFF, 0xFEFF); (0xFF07, 0xFF07);
  (0xFF0E, 0xFF0E); (0xFF1A, 0xFF1A); (0xFF3E, 0xFF3E); (0xFF40, 0xFF40);
  (0xFF70, 0xFF70); (0xFF9E, 0xFF9F); (0xFFE3, 0xFFE3); (0xFFF9, 0xFFFB);
  (0x101FD, 0x101FD); (0x102E0, 0x102E0); (0x10376, 0x1037A); (0x10780, 0x10785);
  (0x10787, 0x107B0); (0x107B2, 0x107BA); (0x10A01, 0x10A03); (0x10A05, 0x10A06);
  (0x10A0C, 0x10A0F); (0x10A38, 0x10A3A); (0x10A3F, 0x10A3F); (0x10AE5, 0x10AE6);
  (0x10D24, 0x10D27); (0x10EAB, 0x10EAC); (0x10F46, 0x10F50); (0x10F82, 0x10F85);
  (0x11001, 0x11001); (0x11038, 0x11046); (0x11070, 0x11070); (0x11073, 0x11074);
  (0x1107F, 0x11081); (0x110B3, 0x110B6); (0x110B9, 0x110BA); (0x110BD, 0x110BD);
  (0x110C2, 0x110C2); (0x110CD, 0x110CD); (0x11100, 0x11102); (0x11127, 0x1112B);
  (0x1112D, 0x11134); (0x11173, 0x11173); (0x11180, 0x11181); (0x111B6, 0x111BE);
  (0x111C9, 0x111CC); (0x111CF, 0x111CF); (0x1122F, 0x11231); (0x11234, 0x11234);
  (0x11236, 0x11237); (0x1123E, 0x1123E); (0x112DF, 0x112DF); (0x112E3, 0x112EA);
  (0x11300, 0x11301); (0x1133B, 0x1133C); (0x11340, 0x11340); (0x11366, 0x1136C);
  (0x11370, 0x11374); (0x11438, 0x1143F); (0x11442, 0x11444); (0x11446, 0x11446);
  (0x1145E, 0x1145E); (0x114B3, 0x114B8); (0x114BA, 0x114BA); (0x114BF, 0x114C0);
  (0x114C2, 0x114C3); (0x115B2, 0x115B5); (0x115BC, 0x115BD); (0x115BF, 0x115C0);
  (0x115DC, 0x115DD); (0x11633, 0x1163A); (0x1163D, 0x1163D); (0x1163F, 0x11640);
  (0x116AB, 0x116AB); (0x116AD, 0x116AD); (0x116B0, 0x116B5); (0x116B7, 0x116B7);
  (0x1171D, 0x1171F); (0x11722, 0x11725); (0x11727, 0x1172B); (0x1182F, 0x11837);
  (0x11839, 0x1183A); (0x1193B, 0x1193C); (0x1193E, 0x1193E); (0x11943, 0x11943);
  (0x119D4, 0x119D7); (0x119DA, 0x119DB); (0x119E0, 0x119E0); (0x11A01, 0x11A0A);
  (0x11A33, 0x11A38); (0x11A3B, 0x11A3E); (0x11A47, 0x11A47); (0x11A51, 0x11A56);
  (0x11A59, 0x11A5B); (0x11A8A, 0x11A96); (0x11A98, 0x11A99); (0x11C30, 0x11C36);
  (0x11C38, 0x11C3D); (0x11C3F, 0x11C3F); (0x11C92, 0x11CA7); (0x11CAA, 0x11CB0);
  (0x11CB2, 0x11CB3); (0x11CB5, 0x11CB6); (0x11D31, 0x11D36); (0x11D3A, 0x11D3A);
  (0x11D3C, 0x11D3D); (0x11D3F, 0x11D45); (0x11D47, 0x11D47); (0x11D90, 0x11D91);
  (0x11D95, 0x11D95); (0x11D97, 0x11D97); (0x11EF3, 0x11EF4); (0x13430, 0x13438);
  (0x16AF0, 0x16AF4); (0x16B30, 0x16B36); (0x16B40, 0x16B43); (0x16F4F, 0x16F4F);
  (0x16F8F, 0x16F9F); (0x16FE0, 0x16FE1); (0x16FE3, 0x16FE4); (0x1AFF0, 0x1AFF3);
  (0x1AFF5, 0x1AFFB); (0x1AFFD, 0x1AFFE); (0x1BC9D, 0x1BC9E); (0x1BCA0, 0x1BCA3);
  (0x1CF00, 0x1CF2D); (0x1CF30, 0x1CF46); (0x1D167, 0x1D169); (0x1D173, 0x1D182);
  (0x1D185, 0x1D18B); (0x1D1AA, 0x1D1AD); (0x1D242, 0x1D244); (0x1DA00, 0x1DA36);
  (0x1DA3B, 0x1DA6C); (0x1DA75, 0x1DA75); (0x1DA84, 0x1DA84); (0x1DA9B, 0x1DA9F);
  (0x1DAA1, 0x1DAAF); (0x1E000, 0x1E006); (0x1E008, 0x1E018); (0x1E01B, 0x1E021);
  (0x1E023, 0x1E024); (0x1E026, 0x1E02A); (0x1E130, 0x1E13D); (0x1E2AE, 0x1E2AE);
  (0x1E2EC, 0x1E2EF); (0x1E8D0, 0x1E8D6); (0x1E944, 0x1E94B); (0x1F3FB, 0x1F3FF);
  (0xE0001, 0xE0001); (0xE0020, 0xE007F); (0xE0100, 0xE01EF) ].

(** The entries a run stands for. *)
Definition expand_run (r : N * N * N * N) : list (N * list N) :=
  let '(k, v, n, step) := r in
  (λ i, (k + N.of_nat i * step, [v + N.of_nat i * step])) <$> seq 0 (N.to_nat n).

(** The lowercase and uppercase mappings, as association lists. *)
Definition lower_table : list (N * list N) :=
  lower_special ++ (lower_runs ≫= expand_run).

Definition upper_table : list (N * list N) :=
  upper_special ++ (upper_runs ≫= expand_run).

(** The entry of a code point in a table, if it has one. *)
Fixpoint assoc (c : N) (tbl : list (N * list N)) : option (list N) :=
  match tbl with
  | [] => None
  | (k, v) :: tbl => if c =? k then Some v else assoc c tbl
  end.

(** Membership in a list of inclusive ranges. *)
Definition in_ranges (c : N) (rs : list (N * N)) : bool :=
  existsb (λ '(lo, hi), (lo <=? c) && (c <=? hi)) rs.

(** [_PyUnicode_ToLowerFull], [_PyUnicode_ToUpperFull], [_PyUnicode_IsCased]
    and [_PyUnicode_IsCaseIgnorable] of CPython's [unicodectype.c]. *)
Definition to_lower_full (c : N) : list N := default [c] (assoc c lower_table).
Definition to_upper_full (c : N) : list N := default [c] (assoc c upper_table).
Definition is_cased (c : N) : bool := in_ranges c cased_ranges.
Definition is_case_ignorable (c : N) : bool := in_ranges c case_ignorable_ranges.

End UCD.

Import UCD.

(** ** [str.lower] and [str.upper] *)

(** [PyUnicode_IS_ASCII] holds of a string when all its code points are
    below 0x80. *)
Definition is_ascii (c : N) : bool := c <? 0x80.

(** [ascii_upper_or_lower]: the fast path taken when every code point of the
    string is ASCII. *)
Definition ascii_lower (c : N) : N :=
  if (0x41 <=? c) && (c <=? 0x5A) then c + 0x20 else c.
Definition ascii_upper (c : N) : N :=
  if (0x61 <=? c) && (c <=? 0x7A) then c - 0x20 else c.

(** [handle_capital_sigma]: U+03A3 at index [i] of [s] lowercases to the
    final sigma U+03C2 when it is preceded by a cased letter and not
    followed by one, case-ignorable code points being skipped on both
    sides; to U+03C3 otherwise. *)
Definition handle_capital_sigma (s : str) (i : nat) : N :=
  let not_ignorable c := negb (is_case_ignorable c) in
  let final_sigma :=
    match find not_ignorable (reverse (take i s)) with
    | Some c => is_cased c
    | None => false
    end in
  let final_sigma :=
    final_sigma &&
    match find not_ignorable (drop (S i) s) with
    | Some c => negb (is_cased c)
    | None => true
    end in
  if final_sigma then 0x3C2 else 0x3C3.

(** [lower_ucs4]: the lowercase form of the code point [c] at index [i]
    of [s]; only U+03A3 depends on its context. *)
Definition lower_ucs4 (s : str) (i : nat) (c : N) : list N :=
  if c =? 0x3A3 then [handle_capital_sigma s i] else to_lower_full c.

(** [do_lower] and [do_upper]: the mapped code points of all positions,
    concatenated. *)
Definition do_lower (s : str) : str := mjoin (imap (lower_ucs4 s) s).
Definition do_upper (s : str) : str := mjoin (to_upper_full <$> s).

(** [word.lower()] and [word.upper()]. *)
Definition lower (s : str) : str :=
  if forallb is_ascii s then ascii_lower <$> s else do_lower s.
Definition upper (s : str) : str :=
  if forallb is_ascii s then ascii_upper <$> s else do_upper s.

(** ** [str.endswith], slicing and [len] *)

(** [word.endswith(suffix)]: the last [len(suffix)] code points of [word]
    are compared with [suffix]; a suffix longer than the word never
    matches. *)
Definition endswith (word suffix : str) : bool :=
  if decide (length suffix ≤ length word)%nat
  then bool_decide (drop (length word - length suffix) word = suffix)
  else false.

(** [word[:-n]] for [n = len(suffix)]: the stop index [-n] counts from the
    end and is clamped at [0]; for [n = 0] the stop index is [-0 = 0] and
    the slice is empty. *)
Definition slice_to_neg (word : str) (n : nat) : str :=
  match n with
  | O => []
  | _ => take (length word - n) word
  end.

(** ** The notebook's functions *)

(** [suffixes = ['ing', 'ed', 'er', 'est', 'ly', 's', 'es']] *)
Definition suffixes : list str :=
  lit <$> ["ing"; "ed"; "er"; "est"; "ly"; "s"; "es"]%string.

(** The body of the [for] loop:
    [if word.endswith(suffix): word = word[:-len(suffix)]]. *)
Definition strip_suffix_step (word suffix : str) : str :=
  if endswith word suffix then slice_to_neg word (length suffix) else word.

(** [stem_word_custom(word)]: the loop runs over the whole list, threading
    the current value of [word]. *)
Definition stem_word_custom (word : str) : str :=
  let word := lower word in
  foldl strip_suffix_step word suffixes.

(** The dictionary literal [word_forms]. *)
Definition word_forms : gmap str str :=
  list_to_map
    [ (lit "running", lit "run");
      (lit "ran", lit "run");
      (lit "runs", lit "run");
      (lit "better", lit "good");
      (lit "best", lit "good");
      (lit "went", lit "go");
      (lit "going", lit "go");
      (lit "goes", lit "go") ].

(** [lemmatize_word_custom(word)]: [word_forms.get(word, word)] on the
    lowercased word. *)
Definition lemmatize_word_custom (word : str) : str :=
  let word := lower word in
  default word (word_forms !! word).

(** ** The suffix scan as the specification describes it

    "For each suffix in the Suffix List, in the fixed order: if the current
    (possibly already-shortened) word ends with that suffix, replace the
    word with the prefix obtained by removing that suffix's length from the
    end.  Do not stop after the first match."  [SuffixStripper_scan w l r]
    says that scanning the suffixes [l] from the word [w] in this way ends
    with [r]. *)
Inductive SuffixStripper_scan : str → list str → str → Prop :=
  | scan_done word :
      SuffixStripper_scan word [] word
  | scan_match rest suffix l result :
      SuffixStripper_scan rest l result →
      SuffixStripper_scan (rest ++ suffix) (suffix :: l) result
  | scan_skip word suffix l result :
      ¬ suffix `suffix_of` word →
      SuffixStripper_scan word l result →
      SuffixStripper_scan word (suffix :: l) result.

(** The number of occurrences of U+0130 (capital I with dot above) in a
    string: the one code point whose lowercase form is longer than itself. *)
Definition count_0130 (s : str) : nat := length (filter (λ c, c = 0x130) s).

(** ** Run-time errors

    The exceptions of Python that the notebook's code can meet: a method
    that the object does not have ([AttributeError]), an operand of the
    wrong type ([TypeError]), an index out of range ([IndexError]), a
    missing key ([KeyError]), and the error spaCy's parser raises on a
    string it cannot encode ([UnicodeEncodeError]). *)
Inductive exception :=
  | IndexError
  | KeyError (key : str)
  | AttributeError
  | TypeError
  | UnicodeEncodeError.

Inductive result (A : Type) :=
  | Return (a : A)
  | Raise (e : exception).
Arguments Return {A} a.
Arguments Raise {A} e.

#[global] Instance result_ret : MRet result := λ A a, Return a.
#[global] Instance result_bind : MBind result := λ A B f m,
  match m with
  | Return a => f a
  | Raise e => Raise e
  end.

(** ** The two functions on arbitrary objects

    Python does not check the type of [word]: the functions can be called
    with any object, and every operation of their bodies checks its operands
    when it runs.  The objects modelled are [None], booleans, integers and
    strings. *)
Inductive value :=
  | VNone
  | VBool (b : bool)
  | VInt (n : Z)
  | VStr (s : str).

(** [obj.lower()]: only strings have the method. *)
Definition py_lower (obj : value) : result value :=
  match obj with
  | VStr s => Return (VStr (lower s))
  | _ => Raise AttributeError
  end.

(** [obj.endswith(suffix)]: only strings have the method, and the suffix
    must be a string. *)
Definition py_endswith (obj suffix : value) : result value :=
  match obj with
  | VStr s =>
      match suffix with
      | VStr t => Return (VBool (endswith s t))
      | _ => Raise TypeError
      end
  | _ => Raise AttributeError
  end.

(** [len(obj)]: integers, booleans and [None] have no length. *)
Definition py_len (obj : value) : result value :=
  match obj with
  | VStr s => Return (VInt (Z.of_nat (length s)))
  | _ => Raise TypeError
  end.

(** [-obj]: defined on integers and booleans. *)
Definition py_neg (obj : value) : result value :=
  match obj with
  | VInt n => Return (VInt (- n))
  | VBool b => Return (VInt (- (if b then 1 else 0)))
  | _ => Raise TypeError
  end.

(** [s[:stop]] on a string, for an integer [stop]: a negative [stop] counts
    from the end; the bound is clamped to the string, so a slice never
    raises [IndexError]. *)
Definition slice_to (s : str) (stop : Z) : str :=
  let len := Z.of_nat (length s) in
  let stop := if (stop <? 0)%Z then Z.max (stop + len) 0 else Z.min stop len in
  take (Z.to_nat stop) s.

(** [obj[:stop]]: the object must be a string (of the objects modelled) and
    the bound an integer, a boolean or [None]. *)
Definition py_slice_to (obj stop : value) : result value :=
  match obj with
  | VStr s =>
      match stop with
      | VInt n => Return (VStr (slice_to s n))
      | VBool b => Return (VStr (slice_to s (if b then 1 else 0)))
      | VNone => Return (VStr s)
      | VStr _ => Raise TypeError
      end
  | _ => Raise TypeError
  end.

(** The truth value an [if] tests. *)
Definition py_truth (obj : value) : bool :=
  match obj with
  | VNone => false
  | VBool b => b
  | VInt n => negb (n =? 0)%Z
  | VStr s => negb (bool_decide (s = []))
  end.

(** [d.get(key, fallback)] on a dictionary with string keys and values:
    every object modelled is hashable, and only a string can be a key of the
    dictionary. *)
Definition py_dict_get (d : gmap (list N) (list N)) (key fallback : value)
  : result value :=
  match key with
  | VStr s => Return (from_option VStr fallback (d !! s))
  | _ => Return fallback
  end.

(** [for item in items: word = body(word, item)] *)
Fixpoint py_for (body : value → value → result value)
    (word : value) (items : list value) : result value :=
  match items with
  | [] => Return word
  | item :: items => word ← body word item; py_for body word items
  end.

(** [stem_word_custom(word)] on an object, statement by statement. *)
Definition stem_word_custom_run (word : value) : result value :=
  word ← py_lower word;
  let suffixes := VStr <$> suffixes in
  py_for
    (λ word suffix,
       matches ← py_endswith word suffix;
       if py_truth matches
       then n ← py_len suffix; stop ← py_neg n; py_slice_to word stop
       else Return word)
    word suffixes.

(** [lemmatize_word_custom(word)] on an object. *)
Definition lemmatize_word_custom_run (word : value) : result value :=
  word ← py_lower word;
  py_dict_get word_forms word word.

(** ** The interactive cells of the notebook

    The other cells call the stemmers and lemmatizers of NLTK and spaCy and
    print what they return.  These tools are taken as given: each stemmer
    and the WordNet lemmatizer maps a string to a string, and [nlp] either
    raises an exception of its own or returns the parsed document, given by
    the lemmas ([lemma_]) of its tokens, which may have no token at all. *)
Record tools := {
  porter_stem : str → str;          (* porter.stem *)
  lancaster_stem : str → str;       (* lancaster.stem *)
  snowball_stem : str → str;        (* snowball.stem *)
  lemmatize : str → str;            (* lemmatizer.lemmatize *)
  nlp : str → result (list str)     (* [token.lemma_ for token in nlp(word)] *)
}.

(** What a cell shows: a line written by [print], or a one-column table
    shown by [display], given by the name of its column and its rows (the
    items of the dictionary the table is built from, in insertion order). *)
Inductive output :=
  | Print (text : str)
  | Display (column : str) (rows : list (str * str)).

(** The run of a cell: what it has shown, and the exception that ended it,
    if any. *)
Abbreviation run := (list output * option exception)%type (only parsing).

(** The newline of ["\n..."]. *)
Definition nl : str := [10].

(** [d[key]] on a dictionary kept as the list of its items. *)
Fixpoint dict_getitem (d : list (str * str)) (key : str) : result str :=
  match d with
  | [] => Raise (KeyError key)
  | (k, v) :: d => if bool_decide (k = key) then Return v else dict_getitem d key
  end.

(** [nlp(word)[0].lemma_] *)
Definition first_lemma (T : tools) (word : str) : result str :=
  match nlp T word with
  | Raise e => Raise e
  | Return [] => Raise IndexError
  | Return (lemma :: _) => Return lemma
  end.

(** [get_word_transformations(word)] *)
Definition get_word_transformations (T : tools) (word : str)
  : result (list (str * str)) :=
  match first_lemma T word with
  | Raise e => Raise e
  | Return spacy_lemma =>
      Return [ (lit "Original", word);
               (lit "Porter Stemmer", porter_stem T word);
               (lit "Lancaster Stemmer", lancaster_stem T word);
               (lit "Snowball Stemmer", snowball_stem T word);
               (lit "NLTK Lemmatizer", lemmatize T word);
               (lit "spaCy Lemmatizer", spacy_lemma) ]
  end.

(** The options of [method_dropdown]. *)
Definition method_options : list str :=
  lit <$> ["All"; "Porter Stemmer"; "Lancaster Stemmer"; "Snowball Stemmer";
           "NLTK Lemmatizer"; "spaCy Lemmatizer"]%string.

(** [update_transformations(word, method)].  The branch for ['All'] draws a
    bar chart with matplotlib ([visualize_transformations]); it is a
    parameter here. *)
Definition update_transformations (T : tools)
    (visualize_transformations : str → run) (word method : str) : run :=
  if bool_decide (method = lit "All") then visualize_transformations word
  else
    match get_word_transformations T word with
    | Raise e => ([], Some e)
    | Return transformations =>
        let shown := [Print (nl ++ lit "Original word: " ++ word)] in
        match dict_getitem transformations method with
        | Raise e => (shown, Some e)
        | Return value =>
            (shown ++ [Print (method ++ lit " result: " ++ value)], None)
        end
    end.

(** [update_word_forms(word)] *)
Definition update_word_forms (T : tools) (word : str) : list output :=
  [ Print (lit "Original word: " ++ word);
    Print (lit "Stemmed (custom): " ++ stem_word_custom word);
    Print (lit "Lemmatized (custom): " ++ lemmatize_word_custom word);
    Print (nl ++ lit "Stemmed (Porter): " ++ porter_stem T word);
    Print (lit "Lemmatized (NLTK): " ++ lemmatize T word) ].

(** [test_patterns(word)]: the dictionary [forms] is built first, so a
    failure of the parser, or a document without tokens, ends the cell
    before anything is shown.  The
    explanation is a sequence of independent [if]s on the word as typed. *)
Definition test_patterns (T : tools) (word : str) : run :=
  match first_lemma T word with
  | Raise e => ([], Some e)
  | Return spacy_lemma =>
      ([ Display (lit "Result")
           [ (lit "Original", word);
             (lit "Porter Stem", porter_stem T word);
             (lit "NLTK Lemma", lemmatize T word);
             (lit "spaCy Lemma", spacy_lemma) ];
         Print (nl ++ lit "Pattern Explanation:") ]
       ++ (if endswith word (lit "ing")
           then [Print (lit "- Removed 'ing' suffix")] else [])
       ++ (if endswith word (lit "ed")
           then [Print (lit "- Removed 'ed' suffix")] else [])
       ++ (if endswith word (lit "s")
           then [Print (lit "- Removed 's' suffix")] else [])
       ++ (if endswith word (lit "er")
           then [Print (lit "- Removed 'er' suffix")] else [])
       ++ (if endswith word (lit "est")
           then [Print (lit "- Removed 'est' suffix")] else []),
       None)
  end.

(** [compare_stemming_patterns(word)] *)
Definition compare_stemming_patterns (T : tools) (word : str) : list output :=
  let stems :=
    [ (lit "Porter", porter_stem T word);
      (lit "Lancaster", lancaster_stem T word);
      (lit "Snowball", snowball_stem T word) ] in
  [ Display (lit "Stemmed Result") stems;
    Print (nl ++ lit "Pattern Analysis:") ]
  ++ (if bool_decide (size (list_to_set (C := gset (list N)) (stems.*2)) = 1%nat)
      then [Print (lit "All stemmers produced the same result")]
      else Print (lit "Different stemmers produced different results:")
           :: ((λ '(stemmer, stem), Print (lit "- " ++ stemmer ++ lit ": " ++ stem))
                 <$> stems))
  ++ [Print (nl ++ lit "Pattern Explanation:")]
  ++ (if endswith word (lit "ing")
      then [Print (lit "- Removed 'ing' suffix")] else [])
  ++ (if endswith word (lit "ed")
      then [Print (lit "- Removed 'ed' suffix")] else [])
  ++ (if endswith word (lit "s")
      then [Print (lit "- Removed 's' suffix")] else [])
  ++ (if endswith word (lit "er")
      then [Print (lit "- Removed 'er' suffix")] else [])
  ++ (if endswith word (lit "est")
      then [Print (lit "- Removed 'est' suffix")] else [])
  ++ (if endswith word (lit "ly")
      then [Print (lit "- Removed 'ly' suffix")] else []).

(** The pattern analysis of [analyze_stemming_patterns] and
    [update_stemming_analysis] (the same [if]/[elif] chain in both): the
    line printed for a word and the stem a stemmer returned for it. *)
Definition stemming_pattern (word stem : str) : list output :=
  if bool_decide (word ≠ stem) then
    if endswith word (lit "ing") && bool_decide (stem = slice_to_neg word 3)
    then [Print (lit "Pattern: Removed 'ing' suffix")]
    else if endswith word (lit "ed") && bool_decide (stem = slice_to_neg word 2)
    then [Print (lit "Pattern: Removed 'ed' suffix")]
    else if endswith word (lit "er") && bool_decide (stem = slice_to_neg word 2)
    then [Print (lit "Pattern: Removed 'er' suffix")]
    else if endswith word (lit "est") && bool_decide (stem = slice_to_neg word 3)
    then [Print (lit "Pattern: Removed 'est' suffix")]
    else if endswith word (lit "s") && bool_decide (stem = slice_to_neg word 1)
    then [Print (lit "Pattern: Removed 's' suffix")]
    else if endswith word (lit "es") && bool_decide (stem = slice_to_neg word 2)
    then [Print (lit "Pattern: Removed 'es' suffix")]
    else if endswith word (lit "ly") && bool_decide (stem = slice_to_neg word 2)
    then [Print (lit "Pattern: Removed 'ly' suffix")]
    else [Print (lit "Pattern: Complex transformation")]
  else [].

(** [update_stemming_analysis(word, stemmer_type)].  The branch for ['All']
    draws a bar chart with matplotlib ([analyze_stemming_patterns]); it is a
    parameter here.  Any type other than ['All'], ['Porter'] and
    ['Lancaster'] selects the Snowball stemmer. *)
Definition update_stemming_analysis (T : tools)
    (analyze_stemming_patterns : str → run) (word stemmer_type : str) : run :=
  if bool_decide (stemmer_type = lit "All") then analyze_stemming_patterns word
  else
    let '(stem, stemmer_name) :=
      if bool_decide (stemmer_type = lit "Porter")
      then (porter_stem T word, lit "Porter Stemmer")
      else if bool_decide (stemmer_type = lit "Lancaster")
      then (lancaster_stem T word, lit "Lancaster Stemmer")
      else (snowball_stem T word, lit "Snowball Stemmer") in
    ([ Print (nl ++ stemmer_name ++ lit " Analysis:");
       Print (lit "Original: " ++ word);
       Print (lit "Stemmed: " ++ stem) ]
     ++ stemming_pattern word stem,
     None).

(** The line of the pattern analysis that reports a removed suffix. *)
Definition removed_suffix_line (suffix : str) : output :=
  Print (lit "Pattern: Removed '" ++ suffix ++ lit "' suffix").

(** The line of the pattern explanation for a suffix. *)
Definition explanation_line (suffix : str) : output :=
  Print (lit "- Removed '" ++ suffix ++ lit "' suffix").

(** A concrete choice of tools, to instantiate the statements: the
    notebook's own stemmer and lemmatizer, and a parser that fails on a word
    with a surrogate code point, gives no token to the empty word and one
    token to any other word. *)
Definition sample_tools : tools := {|
  porter_stem := stem_word_custom;
  lancaster_stem := stem_word_custom;
  snowball_stem := lower;
  lemmatize := lemmatize_word_custom;
  nlp := λ word,
    if existsb (λ c, (0xD800 <=? c) && (c <=? 0xDFFF)) word
    then Raise UnicodeEncodeError
    else match word with
         | [] => Return []
         | _ => Return [lemmatize_word_custom word]
         end
|}.

(** Case analysis on the comparisons of the ASCII mappings. *)
Ltac ascii_cases :=
  unfold is_ascii, ascii_lower, ascii_upper in *;
  repeat match goal with
    | |- context [N.leb ?a ?b] => destruct (N.leb_spec a b)
    | |- context [N.ltb ?a ?b] => destruct (N.ltb_spec a b)
    | H : context [N.ltb ?a ?b] |- _ => destruct (N.ltb_spec a b)
    end;
  simpl in *; try done; try lia.

(** Closes a branch of the pattern analysis whose hypotheses say that one
    word is a stem followed by two different suffixes. *)
Ltac chain_contradiction :=
  try done;
  match goal with
  | H : ?stem ++ _ = ?stem ++ _ |- _ =>
      apply app_inv_head in H; by vm_compute in H
  end.

(** * Properties *)

(** ** [endswith] and the slice *)

Lemma endswith_suffix_of (word suffix : str) :
  endswith word suffix = true ↔ suffix `suffix_of` word.
Proof.
  unfold endswith. case_decide as Hlen.
  - rewrite bool_decide_eq_true. split.
    + intros Hdrop. exists (take (length word - length suffix) word).
      rewrite <- Hdrop at 2. by rewrite take_drop.
    + intros [k ->]. rewrite length_app.
      replace (length k + length suffix - length suffix)%nat
        with (length k) by lia.
      apply drop_app_length.
  - split; [done|]. intros [k ->]. rewrite length_app in Hlen. lia.
Qed.

Lemma endswith_app (rest suffix : str) : endswith (rest ++ suffix) suffix = true.
Proof. apply endswith_suffix_of. by exists rest. Qed.

Lemma slice_to_neg_app (rest suffix : str) :
  suffix ≠ [] → slice_to_neg (rest ++ suffix) (length suffix) = rest.
Proof.
  intros Hne. unfold slice_to_neg.
  destruct (length suffix) as [|n] eqn:Hn.
  - by destruct suffix.
  - rewrite <- Hn, length_app.
    replace (length rest + length suffix - length suffix)%nat
      with (length rest) by lia.
    apply take_app_length.
Qed.

Lemma slice_to_neg_prefix (word : str) (n : nat) :
  slice_to_neg word n `prefix_of` word.
Proof.
  destruct n as [|n]; simpl; [apply prefix_nil | apply prefix_take].
Qed.

(** ** One iteration of the loop *)

Lemma strip_suffix_step_match (rest suffix : str) :
  suffix ≠ [] → strip_suffix_step (rest ++ suffix) suffix = rest.
Proof.
  intros Hne. unfold strip_suffix_step.
  rewrite endswith_app. by apply slice_to_neg_app.
Qed.

Lemma strip_suffix_step_skip (word suffix : str) :
  endswith word suffix = false → strip_suffix_step word suffix = word.
Proof. intros Hno. unfold strip_suffix_step. by rewrite Hno. Qed.

Lemma strip_suffix_step_prefix (word suffix : str) :
  strip_suffix_step word suffix `prefix_of` word.
Proof.
  unfold strip_suffix_step. destruct (endswith word suffix).
  - apply slice_to_neg_prefix.
  - done.
Qed.

(** ** The whole loop *)

Lemma foldl_strip_prefix (l : list str) (word : str) :
  foldl strip_suffix_step word l `prefix_of` word.
Proof.
  revert word. induction l as [|suffix l IH]; intros word; simpl.
  - done.
  - etrans; [apply IH | apply strip_suffix_step_prefix].
Qed.

Lemma foldl_strip_no_match (l : list str) (word : str) :
  Forall (λ suffix, endswith word suffix = false) l →
  foldl strip_suffix_step word l = word.
Proof.
  induction 1 as [|suffix l Hno _ IH]; simpl.
  - done.
  - by rewrite strip_suffix_step_skip.
Qed.

Lemma scan_foldl (l : list str) (word : str) :
  Forall (λ suffix, suffix ≠ []) l →
  SuffixStripper_scan word l (foldl strip_suffix_step word l).
Proof.
  intros Hne. revert word.
  induction Hne as [|suffix l Hsuffix _ IH]; intros word; simpl.
  - constructor.
  - destruct (endswith word suffix) eqn:Hends.
    + apply endswith_suffix_of in Hends as [rest ->].
      rewrite strip_suffix_step_match by done.
      apply scan_match, IH.
    + rewrite strip_suffix_step_skip by done.
      apply scan_skip, IH.
      rewrite <- endswith_suffix_of. by rewrite Hends.
Qed.

Lemma scan_functional (l : list str) (word result : str) :
  Forall (λ suffix, suffix ≠ []) l →
  SuffixStripper_scan word l result →
  result = foldl strip_suffix_step word l.
Proof.
  intros Hne Hscan.
  induction Hscan as [word|rest suffix l result _ IH
                      |word suffix l result Hno _ IH]; simpl.
  - done.
  - apply Forall_cons in Hne as [Hsuffix Hne].
    rewrite strip_suffix_step_match by done. by apply IH.
  - apply Forall_cons in Hne as [_ Hne].
    rewrite strip_suffix_step_skip; [by apply IH|].
    destruct (endswith word suffix) eqn:Hends; [|done].
    by apply endswith_suffix_of in Hends.
Qed.

(** ** The case tables

    The facts about the tables are checked by evaluation over all their
    entries. *)

Lemma assoc_Some_elem_of (c : N) (v : list N) (tbl : list (N * list N)) :
  assoc c tbl = Some v → (c, v) ∈ tbl.
Proof.
  induction tbl as [|[k v'] tbl IH]; simpl; [done|].
  destruct (N.eqb_spec c k) as [->|Hne].
  - intros [= ->]. left.
  - intros Hc. right. by apply IH.
Qed.

(** Every code point a lowercase mapping produces is itself unmapped. *)
Lemma lower_table_fixed :
  Forall (λ e, Forall (λ d, assoc d lower_table = None) e.2) lower_table.
Proof. compute_done. Qed.

(** U+0130 is the only code point with a lowercase mapping that is not a
    single code point. *)
Lemma lower_table_length :
  Forall (λ e, e.1 = 0x130 ∨ length e.2 = 1%nat) lower_table.
Proof. compute_done. Qed.

(** On ASCII the tables are the ASCII mappings of the fast path. *)
Lemma lower_table_ascii :
  Forall (λ n, to_lower_full (N.of_nat n) = [ascii_lower (N.of_nat n)])
         (seq 0 128).
Proof. compute_done. Qed.

Lemma upper_table_ascii :
  Forall (λ n, to_upper_full (N.of_nat n) = [ascii_upper (N.of_nat n)])
         (seq 0 128).
Proof. compute_done. Qed.

Lemma to_lower_full_ascii (c : N) :
  is_ascii c = true → to_lower_full c = [ascii_lower c].
Proof.
  intros Hc%N.ltb_lt. pose proof lower_table_ascii as HT.
  rewrite Forall_forall in HT. specialize (HT (N.to_nat c)).
  rewrite N2Nat.id in HT. apply HT, elem_of_seq. lia.
Qed.

Lemma to_upper_full_ascii (c : N) :
  is_ascii c = true → to_upper_full c = [ascii_upper c].
Proof.
  intros Hc%N.ltb_lt. pose proof upper_table_ascii as HT.
  rewrite Forall_forall in HT. specialize (HT (N.to_nat c)).
  rewrite N2Nat.id in HT. apply HT, elem_of_seq. lia.
Qed.

Lemma to_lower_full_fixed (c : N) :
  Forall (λ d, assoc d lower_table = None) (to_lower_full c).
Proof.
  unfold to_lower_full.
  destruct (assoc c lower_table) as [v|] eqn:Hc; simpl.
  - apply assoc_Some_elem_of in Hc. pose proof lower_table_fixed as HT.
    rewrite Forall_forall in HT. apply (HT _ Hc).
  - by constructor.
Qed.

Lemma length_to_lower_full (c : N) :
  length (to_lower_full c) = if decide (c = 0x130) then 2%nat else 1%nat.
Proof.
  case_decide as Hc; [by subst|]. unfold to_lower_full.
  destruct (assoc c lower_table) as [v|] eqn:Hv; simpl; [|done].
  apply assoc_Some_elem_of in Hv. pose proof lower_table_length as HT.
  rewrite Forall_forall in HT. by destruct (HT _ Hv).
Qed.

(** ** ASCII strings *)

Lemma is_ascii_ascii_upper (c : N) :
  is_ascii c = true → is_ascii (ascii_upper c) = true.
Proof. ascii_cases. Qed.

Lemma ascii_lower_upper (c : N) : ascii_lower (ascii_upper c) = ascii_lower c.
Proof. ascii_cases. Qed.

Lemma forallb_is_ascii_lookup (s : str) (i : nat) (c : N) :
  forallb is_ascii s = true → s !! i = Some c → is_ascii c = true.
Proof.
  revert i. induction s as [|d s IH]; intros i; cbn [forallb]; [done|].
  intros [Hd Hs]%andb_true_iff. destruct i as [|i]; simpl.
  - by intros [= <-].
  - by apply IH.
Qed.

Lemma forallb_is_ascii_upper (s : str) :
  forallb is_ascii s = true → forallb is_ascii (ascii_upper <$> s) = true.
Proof.
  induction s as [|c s IH]; cbn [forallb]; [done|].
  intros [Hc Hs]%andb_true_iff. csimpl.
  by rewrite is_ascii_ascii_upper, IH.
Qed.

Lemma join_singletons {A} (f : N → A) (s : str) :
  mjoin ((λ c, [f c]) <$> s) = f <$> s.
Proof. induction s as [|c s IH]; csimpl; [done | by rewrite IH]. Qed.

(** ** [str.lower] and [str.upper] *)

(** The fast paths are optimisations: on an ASCII string the general case
    mapping gives the same result. *)
Lemma do_lower_ascii (s : str) :
  forallb is_ascii s = true → do_lower s = ascii_lower <$> s.
Proof.
  intros Hascii. unfold do_lower.
  rewrite (imap_ext _ (const (λ c, [ascii_lower c]))).
  - rewrite imap_const. apply join_singletons.
  - intros i c Hc%(forallb_is_ascii_lookup _ _ _ Hascii). unfold lower_ucs4.
    destruct (N.eqb_spec c 0x3A3) as [->|_]; [by vm_compute in Hc|].
    by apply to_lower_full_ascii.
Qed.

Lemma do_upper_ascii (s : str) :
  forallb is_ascii s = true → do_upper s = ascii_upper <$> s.
Proof.
  intros Hascii. unfold do_upper.
  rewrite <- (join_singletons ascii_upper s). f_equal.
  apply Forall_fmap_ext_1, Forall_lookup. intros i c Hc.
  eapply to_upper_full_ascii, forallb_is_ascii_lookup; eauto.
Qed.

Lemma lower_do_lower (s : str) : lower s = do_lower s.
Proof.
  unfold lower. destruct (forallb is_ascii s) eqn:Hascii; [|done].
  by rewrite do_lower_ascii.
Qed.

Lemma upper_do_upper (s : str) : upper s = do_upper s.
Proof.
  unfold upper. destruct (forallb is_ascii s) eqn:Hascii; [|done].
  by rewrite do_upper_ascii.
Qed.

Lemma handle_capital_sigma_fixed (s : str) (i : nat) :
  assoc (handle_capital_sigma s i) lower_table = None.
Proof.
  assert (∀ b : bool, assoc (if b then 0x3C2 else 0x3C3) lower_table = None)
    as Hboth by (intros []; by vm_compute).
  apply Hboth.
Qed.

Lemma lower_ucs4_fixed (s : str) (i : nat) (c : N) :
  Forall (λ d, assoc d lower_table = None) (lower_ucs4 s i c).
Proof.
  unfold lower_ucs4. destruct (c =? 0x3A3).
  - repeat constructor. apply handle_capital_sigma_fixed.
  - apply to_lower_full_fixed.
Qed.

Lemma lower_ucs4_id (s : str) (i : nat) (c : N) :
  assoc c lower_table = None → lower_ucs4 s i c = [c].
Proof.
  intros Hc. unfold lower_ucs4.
  destruct (N.eqb_spec c 0x3A3) as [->|_]; [by vm_compute in Hc|].
  unfold to_lower_full. by rewrite Hc.
Qed.

Lemma length_lower_ucs4 (s : str) (i : nat) (c : N) :
  length (lower_ucs4 s i c) = if decide (c = 0x130) then 2%nat else 1%nat.
Proof.
  unfold lower_ucs4. destruct (N.eqb_spec c 0x3A3) as [->|_].
  - done.
  - apply length_to_lower_full.
Qed.

(** A lowercased string consists of unmapped code points (U+03A3 is
    mapped, so it does not occur in it either) ... *)
Lemma do_lower_fixed (s : str) :
  Forall (λ d, assoc d lower_table = None) (do_lower s).
Proof.
  unfold do_lower. apply Forall_join, Forall_forall.
  intros l (i & c & -> & _)%elem_of_lookup_imap. apply lower_ucs4_fixed.
Qed.

(** ... and lowercasing leaves such a string as it is. *)
Lemma do_lower_id (s : str) :
  Forall (λ d, assoc d lower_table = None) s → do_lower s = s.
Proof.
  intros Hs. unfold do_lower.
  rewrite (imap_ext _ (const (λ c, [c]))).
  - rewrite imap_const, join_singletons. apply list_fmap_id.
  - intros i c Hic. apply lower_ucs4_id.
    rewrite Forall_lookup in Hs. by apply (Hs i).
Qed.

Lemma length_join_imap (f : nat → N → list N) (s : str) :
  (∀ i c, length (f i c) = if decide (c = 0x130) then 2%nat else 1%nat) →
  length (mjoin (imap f s)) = (length s + count_0130 s)%nat.
Proof.
  unfold count_0130. revert f.
  induction s as [|c s IH]; intros f Hf; [done|].
  rewrite imap_cons, filter_cons. simpl. rewrite length_app, Hf, IH.
  - case_decide; simpl; lia.
  - intros i d. apply Hf.
Qed.

(** [lower] is idempotent. *)
Lemma lower_idemp (s : str) : lower (lower s) = lower s.
Proof. rewrite !lower_do_lower. apply do_lower_id, do_lower_fixed. Qed.

(** Lowercasing lengthens a string by the number of its U+0130. *)
Lemma length_lower (s : str) :
  length (lower s) = (length s + count_0130 s)%nat.
Proof.
  rewrite lower_do_lower. apply length_join_imap.
  intros i c. apply length_lower_ucs4.
Qed.

(** On ASCII strings, uppercasing first does not change the lowercase
    form. *)
Lemma lower_upper_ascii (s : str) :
  forallb is_ascii s = true → lower (upper s) = lower s.
Proof.
  intros Hascii. unfold upper, lower.
  rewrite Hascii, forallb_is_ascii_upper by done.
  rewrite <- list_fmap_compose.
  apply Forall_fmap_ext_1, Forall_forall. intros c _.
  apply ascii_lower_upper.
Qed.

(** ** The stemmer: [stem_word_custom] *)

Lemma suffixes_nonempty : Forall (λ suffix : str, suffix ≠ []) suffixes.
Proof. repeat constructor; discriminate. Qed.

(** C1, counterexample to the example "classes" gives "class": "classes" is
    trimmed by "s" to "classe", and the later check of "es" sees "classe",
    which does not end with "es"; the result is "classe", not "class". *)
Lemma C1_classes_not_class :
  strip_suffix_step (lit "classes") (lit "s") = lit "classe"
  ∧ endswith (lit "classe") (lit "es") = false
  ∧ stem_word_custom (lit "classes") = lit "classe"
  ∧ stem_word_custom (lit "classes") ≠ lit "class".
Proof. repeat split; by vm_compute. Qed.

(** C1, with the example put right.  For every input word, [stem_word_custom] lowercases
    the word and then scans the seven suffixes in the fixed order
    ["ing"; "ed"; "er"; "est"; "ly"; "s"; "es"]: whenever the current,
    possibly already shortened, word ends with the suffix under
    consideration that suffix is removed from its end, and the scan goes on
    with every remaining suffix.  Its result is the one and only outcome of
    that scan.  So "classes" is trimmed by "s" alone and yields "classe",
    while "princess" is trimmed by "s" and then by "es" and yields
    "princ". *)
Theorem C1_stem_scans_every_suffix :
  (∀ word result : str,
     SuffixStripper_scan (lower word)
       (lit <$> ["ing"; "ed"; "er"; "est"; "ly"; "s"; "es"]%string) result
     ↔ result = stem_word_custom word)
  ∧ stem_word_custom (lit "classes") = lit "classe"
  ∧ strip_suffix_step (lit "princess") (lit "s") = lit "princes"
  ∧ strip_suffix_step (lit "princes") (lit "es") = lit "princ"
  ∧ stem_word_custom (lit "princess") = lit "princ".
Proof.
  split; [|repeat split; by vm_compute].
  intros word result. fold suffixes. split.
  - intros Hscan. by apply scan_functional in Hscan; [|apply suffixes_nonempty].
  - intros ->. apply scan_foldl, suffixes_nonempty.
Qed.

Lemma C1_stem_scans_every_suffix_witness :
  SuffixStripper_scan (lower (lit "Princess"))
    (lit <$> ["ing"; "ed"; "er"; "est"; "ly"; "s"; "es"]%string)
    (lit "princ").
Proof.
  apply (proj1 C1_stem_scans_every_suffix (lit "Princess") (lit "princ")).
  reflexivity.
Defined.

(** C2.  The three stripper examples: "running" gives "runn" (only the
    three characters "ing" are removed; the result is not "run"), "cats"
    gives "cat" and "fastest" gives "fast". *)
Theorem C2_stripper_examples :
  stem_word_custom (lit "running") = lit "runn"
  ∧ stem_word_custom (lit "running") ≠ lit "run"
  ∧ stem_word_custom (lit "cats") = lit "cat"
  ∧ stem_word_custom (lit "fastest") = lit "fast".
Proof. repeat split; by vm_compute. Qed.

(** C5.  When no suffix of the list matches the lowercased word,
    [stem_word_custom] returns the word lowercased and otherwise
    unchanged. *)
Theorem C5_no_match_identity (w : str) :
  Forall (λ suffix, endswith (lower w) suffix = false) suffixes →
  stem_word_custom w = lower w.
Proof. intros Hno. by apply foldl_strip_no_match. Qed.

Lemma C5_no_match_identity_witness :
  Forall (λ suffix, endswith (lower (lit "Dog")) suffix = false) suffixes
  ∧ stem_word_custom (lit "Dog") = lit "dog".
Proof.
  assert (Forall (λ suffix, endswith (lower (lit "Dog")) suffix = false)
            suffixes) as Hno by (repeat constructor).
  split; [exact Hno | exact (C5_no_match_identity (lit "Dog") Hno)].
Defined.

(** C6.  Lowercasing the input before the call does not change the result
    of [stem_word_custom]. *)
Theorem C6_stem_lower (w : str) :
  stem_word_custom w = stem_word_custom (lower w).
Proof. unfold stem_word_custom. by rewrite lower_idemp. Qed.

(** The negative bound of the loop's slice is the slice by length. *)
Lemma slice_to_neg_length (s : str) (n : nat) :
  slice_to s (- Z.of_nat n) = slice_to_neg s n.
Proof.
  unfold slice_to, slice_to_neg. destruct n as [|n].
  - by rewrite Z.min_l by lia.
  - destruct (Z.ltb_spec (- Z.of_nat (S n)) 0) as [_|?]; [|lia].
    f_equal. lia.
Qed.

(** On a string, one pass of the loop body raises nothing and is
    [strip_suffix_step]; so the word is a string again for the next pass. *)
Lemma py_for_strip (l : list str) (w : str) :
  py_for
    (λ word suffix,
       matches ← py_endswith word suffix;
       if py_truth matches
       then n ← py_len suffix; stop ← py_neg n; py_slice_to word stop
       else Return word)
    (VStr w) (VStr <$> l)
  = Return (VStr (foldl strip_suffix_step w l)).
Proof.
  revert w. induction l as [|suffix l IH]; intros w; [done|].
  cbn [fmap list_fmap py_for foldl]. unfold strip_suffix_step at 2.
  cbn [py_endswith mbind result_bind py_truth].
  destruct (endswith w suffix);
    cbn [py_len py_neg py_slice_to mbind result_bind].
  - rewrite slice_to_neg_length. apply IH.
  - apply IH.
Qed.

(** Called with an object that is not a string, both functions raise at
    their first statement. *)
Lemma run_raises_on_other_objects (obj : value) :
  (∀ s, obj ≠ VStr s) →
  stem_word_custom_run obj = Raise AttributeError
  ∧ lemmatize_word_custom_run obj = Raise AttributeError.
Proof. intros Hobj. destruct obj; [done..|]. by destruct (Hobj s). Qed.

(** C8.  On every string both functions run to their end without raising:
    every operation of their bodies finds operands of the types it accepts,
    the slice clamps its bound, and the lookup has a default.  What they
    return is the string the functions above compute.  The stemmer can
    return the empty string, as for "ing", which is returned like any other
    result. *)
Theorem C8_never_raises_on_strings :
  (∀ s : str,
     stem_word_custom_run (VStr s) = Return (VStr (stem_word_custom s)))
  ∧ (∀ s : str,
       lemmatize_word_custom_run (VStr s)
       = Return (VStr (lemmatize_word_custom s)))
  ∧ stem_word_custom_run (VStr (lit "ing")) = Return (VStr []).
Proof.
  assert (∀ s : str,
            stem_word_custom_run (VStr s) = Return (VStr (stem_word_custom s)))
    as Hstem.
  { intros s. unfold stem_word_custom_run, stem_word_custom.
    cbn [py_lower mbind result_bind]. apply py_for_strip. }
  split; [exact Hstem|]. split.
  - intros s. unfold lemmatize_word_custom_run, lemmatize_word_custom.
    cbn [py_lower mbind result_bind py_dict_get].
    by destruct (word_forms !! lower s).
  - rewrite Hstem. by vm_compute.
Qed.

(** C9, counterexample to "never longer than the input": the
    one-character word U+0130 (capital I with dot above) lowercases to the
    two code points U+0069 U+0307, no suffix matches, and both are
    returned. *)
Lemma C9_longer_than_input :
  stem_word_custom [0x130] = [0x69; 0x307]
  ∧ ¬ (length (stem_word_custom [0x130%N]) ≤ length [0x130%N])%nat.
Proof. split; [by vm_compute|]. vm_compute. lia. Qed.

(** C9, with the bound put right.  For every input word [w], [stem_word_custom w] is a
    prefix of [lower w]: only trailing characters of the lowercased word are
    removed and the kept prefix is not altered.  So the output is never
    longer than the lowercased word, which is the input lengthened by one
    code point for each U+0130 it contains. *)
Theorem C9_stem_prefix_of_lower (w : str) :
  stem_word_custom w `prefix_of` lower w
  ∧ (length (stem_word_custom w) ≤ length (lower w))%nat
  ∧ (length (stem_word_custom w) ≤ length w + count_0130 w)%nat.
Proof.
  assert (stem_word_custom w `prefix_of` lower w) as Hpre
    by apply foldl_strip_prefix.
  apply prefix_length in Hpre as Hlen.
  rewrite <- length_lower. done.
Qed.

(** C10.  The stemmer is not idempotent, each suffix being checked once
    per call: "inging" gives "ing", and "ing" gives the empty string. *)
Theorem C10_stem_not_idempotent :
  stem_word_custom (lit "inging") = lit "ing"
  ∧ stem_word_custom (lit "ing") = []
  ∧ ∃ w : str,
      stem_word_custom (stem_word_custom w) ≠ stem_word_custom w.
Proof.
  repeat split; [by vm_compute..|].
  exists (lit "inging"). by vm_compute.
Qed.

(** ** The lemmatizer: [lemmatize_word_custom] *)

(** C3, counterexample to "exactly the entries the specification names":
    the table has eight entries, four more than the four that are named;
    "runs", for one, is a key. *)
Lemma C3_more_entries_than_named :
  size word_forms = 8%nat
  ∧ word_forms !! lit "runs" = Some (lit "run")
  ∧ word_forms ≠
      list_to_map [ (lit "running", lit "run"); (lit "ran", lit "run");
                    (lit "better", lit "good"); (lit "went", lit "go") ].
Proof.
  split; [by vm_compute|]. split; [by vm_compute|].
  intros Heq. apply (f_equal (λ m, m !! lit "runs")) in Heq.
  by vm_compute in Heq.
Qed.

(** C3.  The table holds the four entries the specification names among its
    eight entries, the other four being "runs" and "going" and "goes" and
    "best"; so "running" and "ran" resolve to "run", "better" to "good" and
    "went" to "go". *)
Theorem C3_table_entries :
  (∀ key lemma : str,
     word_forms !! key = Some lemma
     ↔ (key, lemma) ∈
         [ (lit "running", lit "run"); (lit "ran", lit "run");
           (lit "runs", lit "run"); (lit "better", lit "good");
           (lit "best", lit "good"); (lit "went", lit "go");
           (lit "going", lit "go"); (lit "goes", lit "go") ])
  ∧ lemmatize_word_custom (lit "running") = lit "run"
  ∧ lemmatize_word_custom (lit "ran") = lit "run"
  ∧ lemmatize_word_custom (lit "better") = lit "good"
  ∧ lemmatize_word_custom (lit "went") = lit "go".
Proof.
  split; [|repeat split; by vm_compute].
  intros key lemma. unfold word_forms. symmetry.
  apply elem_of_list_to_map. compute_done.
Qed.

Lemma C3_table_entries_witness :
  word_forms !! lit "went" = Some (lit "go").
Proof.
  apply (proj1 C3_table_entries (lit "went") (lit "go")).
  do 5 right. left.
Defined.

(** C4.  For every word whose lowercased form is not a key of the table,
    [lemmatize_word_custom] returns the lowercased word: "dog" gives "dog",
    and "Dog" gives "dog" too, not "Dog". *)
Theorem C4_fallback_is_lowercased_word :
  (∀ w : str,
     word_forms !! lower w = None → lemmatize_word_custom w = lower w)
  ∧ lemmatize_word_custom (lit "dog") = lit "dog"
  ∧ lemmatize_word_custom (lit "Dog") = lit "dog".
Proof.
  split; [|split; by vm_compute].
  intros w Hmiss. unfold lemmatize_word_custom. by rewrite Hmiss.
Qed.

Lemma C4_fallback_is_lowercased_word_witness :
  word_forms !! lower (lit "Dog") = None
  ∧ lemmatize_word_custom (lit "Dog") = lower (lit "Dog").
Proof.
  split; [reflexivity|].
  apply (proj1 C4_fallback_is_lowercased_word (lit "Dog")). reflexivity.
Defined.

(** C7, counterexample outside ASCII.  For the word U+00DF (sharp s) the
    two results differ: its uppercase form is "SS", which the lemmatizer lowercases to
    "ss", while its lowercase form is U+00DF itself. *)
Lemma C7_sharp_s_differs :
  upper [0xDF] = lit "SS"
  ∧ lemmatize_word_custom (upper [0xDF]) = lit "ss"
  ∧ lemmatize_word_custom (lower [0xDF]) = [0xDF]
  ∧ lemmatize_word_custom (upper [0xDF]) ≠ lemmatize_word_custom (lower [0xDF]).
Proof. repeat split; by vm_compute. Qed.

(** C7, on ASCII words.  For every word [w] of ASCII characters,
    [lemmatize_word_custom] gives the same result for the uppercased and
    for the lowercased form of [w]. *)
Theorem C7_case_insensitive_on_ascii (w : str) :
  Forall (λ c, c < 0x80) w →
  lemmatize_word_custom (upper w) = lemmatize_word_custom (lower w).
Proof.
  intros Hascii. unfold lemmatize_word_custom.
  rewrite lower_idemp, lower_upper_ascii; [done|].
  induction Hascii as [|c s Hc _ IH]; cbn [forallb]; [done|].
  rewrite IH, andb_true_r. by apply N.ltb_lt.
Qed.

Lemma C7_case_insensitive_on_ascii_witness :
  Forall (λ c, c < 0x80) (lit "RuNNing")
  ∧ lemmatize_word_custom (upper (lit "RuNNing")) = lit "run"
  ∧ lemmatize_word_custom (lower (lit "RuNNing")) = lit "run".
Proof.
  assert (Forall (λ c, c < 0x80) (lit "RuNNing")) as Hascii
    by (repeat constructor).
  pose proof (C7_case_insensitive_on_ascii (lit "RuNNing") Hascii) as Heq.
  split; [exact Hascii|]. split; [|reflexivity].
  rewrite Heq. reflexivity.
Defined.

(** * Further properties *)

(** ** More on [stem_word_custom] and [lemmatize_word_custom] *)

Lemma endswith_last (word suffix : str) :
  suffix ≠ [] → endswith word suffix = true → last word = last suffix.
Proof.
  intros Hne [k ->]%endswith_suffix_of. rewrite last_app.
  destruct (last suffix) eqn:Hlast; [done|].
  by apply last_None in Hlast.
Qed.

Lemma endswith_last_ne (word suffix : str) :
  suffix ≠ [] → last word ≠ last suffix → endswith word suffix = false.
Proof.
  intros Hne Hlast. destruct (endswith word suffix) eqn:Hends; [|done].
  by apply endswith_last in Hends.
Qed.

Lemma strip_suffix_step_fixed (word suffix : str) :
  suffix ≠ [] → strip_suffix_step word suffix = word →
  endswith word suffix = false.
Proof.
  intros Hne Hfix. destruct (endswith word suffix) eqn:Hends; [|done].
  apply endswith_suffix_of in Hends as [rest ->].
  rewrite strip_suffix_step_match in Hfix by done.
  apply (f_equal length) in Hfix. rewrite length_app in Hfix.
  destruct suffix; [done | simpl in Hfix; lia].
Qed.

Lemma foldl_strip_fixed (l : list str) (word : str) :
  Forall (λ suffix, suffix ≠ []) l →
  foldl strip_suffix_step word l = word →
  Forall (λ suffix, endswith word suffix = false) l.
Proof.
  intros Hne. revert word.
  induction Hne as [|suffix l Hsuffix _ IH]; intros word Hfix; [done|].
  simpl in Hfix.
  assert (strip_suffix_step word suffix = word) as Hstep.
  { apply (anti_symm prefix); [apply strip_suffix_step_prefix|].
    rewrite <- Hfix at 1. apply foldl_strip_prefix. }
  rewrite Hstep in Hfix. constructor; [by apply strip_suffix_step_fixed | auto].
Qed.

Lemma strip_suffix_step_length (word suffix : str) :
  suffix ≠ [] →
  (length word ≤ length (strip_suffix_step word suffix) + length suffix)%nat.
Proof.
  intros Hne. destruct (endswith word suffix) eqn:Hends.
  - apply endswith_suffix_of in Hends as [rest ->].
    rewrite strip_suffix_step_match, length_app by done. lia.
  - rewrite strip_suffix_step_skip by done. lia.
Qed.

Lemma foldl_strip_length (l : list str) (word : str) :
  Forall (λ suffix, suffix ≠ []) l →
  (length word ≤
   length (foldl strip_suffix_step word l) + sum_list (length <$> l))%nat.
Proof.
  intros Hne. revert word.
  induction Hne as [|suffix l Hsuffix _ IH]; intros word; csimpl; [lia|].
  specialize (IH (strip_suffix_step word suffix)).
  pose proof (strip_suffix_step_length word suffix Hsuffix). lia.
Qed.

Lemma lower_fixed_prefix (s t : str) :
  s `prefix_of` lower t → lower s = s.
Proof.
  intros [k Hk]. rewrite lower_do_lower. apply do_lower_id.
  pose proof (do_lower_fixed t) as Hfix.
  rewrite <- lower_do_lower, Hk in Hfix. by apply Forall_app in Hfix as [? _].
Qed.

(** The values of the dictionary are lowercase and are not keys. *)
Lemma word_forms_values (key lemma : str) :
  word_forms !! key = Some lemma →
  lower lemma = lemma ∧ word_forms !! lemma = None.
Proof.
  intros Hin%elem_of_list_to_map_2.
  assert (Forall (λ kv : list N * list N,
                    lower kv.2 = kv.2 ∧ word_forms !! kv.2 = None)
            [ (lit "running", lit "run"); (lit "ran", lit "run");
              (lit "runs", lit "run"); (lit "better", lit "good");
              (lit "best", lit "good"); (lit "went", lit "go");
              (lit "going", lit "go"); (lit "goes", lit "go") ]) as Hall
    by (repeat constructor).
  rewrite Forall_forall in Hall. apply (Hall _ Hin).
Qed.

(** X1.  [stem_word_custom] returns the lowercased word unchanged exactly
    when no suffix of the list matches it: a matching suffix always
    shortens the result. *)
Theorem X1_stem_unchanged_iff_no_match (w : str) :
  stem_word_custom w = lower w
  ↔ Forall (λ suffix, endswith (lower w) suffix = false) suffixes.
Proof.
  split.
  - apply foldl_strip_fixed, suffixes_nonempty.
  - apply foldl_strip_no_match.
Qed.

Lemma X1_stem_unchanged_iff_no_match_witness :
  stem_word_custom (lit "Dog") = lower (lit "Dog")
  ∧ ¬ Forall (λ suffix, endswith (lower (lit "Cats")) suffix = false) suffixes.
Proof.
  split.
  - apply (proj2 (X1_stem_unchanged_iff_no_match (lit "Dog"))).
    repeat constructor.
  - intros Hno.
    apply (proj2 (X1_stem_unchanged_iff_no_match (lit "Cats"))) in Hno.
    vm_compute in Hno. discriminate Hno.
Defined.

(** X2.  The stemmer removes at most 15 characters from the lowercased
    word (the lengths of the seven suffixes together), and a word can lose
    all 15: "esslyestereding" is stemmed to the empty string. *)
Theorem X2_stem_removes_at_most_15 :
  (∀ w : str, (length (lower w) ≤ length (stem_word_custom w) + 15)%nat)
  ∧ length (lit "esslyestereding") = 15%nat
  ∧ stem_word_custom (lit "esslyestereding") = [].
Proof.
  split; [|split; by vm_compute].
  intros w. apply (foldl_strip_length suffixes (lower w)), suffixes_nonempty.
Qed.

(** X3.  The results of both functions are lowercase: lowercasing them
    again changes nothing. *)
Theorem X3_results_are_lowercase (w : str) :
  lower (stem_word_custom w) = stem_word_custom w
  ∧ lower (lemmatize_word_custom w) = lemmatize_word_custom w.
Proof.
  split.
  - apply (lower_fixed_prefix _ w), foldl_strip_prefix.
  - unfold lemmatize_word_custom.
    destruct (word_forms !! lower w) as [lemma|] eqn:Hw; simpl.
    + by apply word_forms_values in Hw as [? _].
    + apply lower_idemp.
Qed.

(** X4.  Unlike the stemmer, the lemmatizer is idempotent: a lemma it
    returns is returned unchanged when looked up again. *)
Theorem X4_lemmatize_idempotent (w : str) :
  lemmatize_word_custom (lemmatize_word_custom w) = lemmatize_word_custom w.
Proof.
  unfold lemmatize_word_custom.
  destruct (word_forms !! lower w) as [lemma|] eqn:Hw; simpl.
  - apply word_forms_values in Hw as [-> ->]. done.
  - by rewrite lower_idemp, Hw.
Qed.

(** X5.  The lemmatizer does not depend on the case of its input:
    lowercasing the word first gives the same lemma, for every string. *)
Theorem X5_lemmatize_lower (w : str) :
  lemmatize_word_custom w = lemmatize_word_custom (lower w).
Proof. unfold lemmatize_word_custom. by rewrite lower_idemp. Qed.

(** X6.  A word whose lowercase form ends with "es" only loses its final
    "s": the suffix "s" is tried before "es", and what is left ends with
    "e". *)
Theorem X6_plural_es_keeps_e (w rest : str) :
  lower w = rest ++ lit "es" →
  stem_word_custom w = rest ++ lit "e".
Proof.
  intros Hw. unfold stem_word_custom. rewrite Hw.
  change (lit "es") with ([101] ++ lit "s"). change (lit "e") with [101 : N].
  rewrite app_assoc. unfold suffixes. cbn [fmap list_fmap foldl].
  assert (∀ suffix, suffix ≠ [] → last suffix ≠ Some 115 →
            strip_suffix_step ((rest ++ [101]) ++ lit "s") suffix
            = (rest ++ [101]) ++ lit "s") as Hskip.
  { intros suffix Hne Hlast. apply strip_suffix_step_skip, endswith_last_ne.
    - done.
    - change (lit "s") with [115 : N]. by rewrite last_snoc. }
  rewrite !Hskip by done.
  rewrite strip_suffix_step_match by done.
  apply strip_suffix_step_skip, endswith_last_ne; [done|].
  by rewrite last_snoc.
Qed.

Lemma X6_plural_es_keeps_e_witness :
  stem_word_custom (lit "Boxes") = lit "boxe".
Proof.
  apply (X6_plural_es_keeps_e (lit "Boxes") (lit "box")). reflexivity.
Defined.

(** ** The pattern analysis of the stemming cells *)

Lemma app_ne_self (stem suffix : str) : suffix ≠ [] → stem ++ suffix ≠ stem.
Proof.
  intros Hne Heq. apply (f_equal length) in Heq. rewrite length_app in Heq.
  destruct suffix; [done | simpl in Heq; lia].
Qed.

(** A branch of the chain holds exactly when the word is the stem followed
    by the suffix of that branch. *)
Lemma chain_branch (word stem suffix : str) (n : nat) :
  suffix ≠ [] → n = length suffix →
  endswith word suffix && bool_decide (stem = slice_to_neg word n)
  = bool_decide (word = stem ++ suffix).
Proof.
  intros Hne ->. destruct (decide (word = stem ++ suffix)) as [->|Hword].
  - rewrite endswith_app, slice_to_neg_app by done.
    by rewrite !bool_decide_eq_true_2.
  - rewrite (bool_decide_eq_false_2 (word = _)) by done.
    destruct (endswith word suffix) eqn:Hends; [|done].
    apply endswith_suffix_of in Hends as [rest ->].
    rewrite slice_to_neg_app by done. simpl.
    apply bool_decide_eq_false_2. by intros ->.
Qed.

Lemma stemming_pattern_cases (word stem : str) :
  stemming_pattern word stem =
  if bool_decide (word ≠ stem) then
    if bool_decide (word = stem ++ lit "ing")
    then [Print (lit "Pattern: Removed 'ing' suffix")]
    else if bool_decide (word = stem ++ lit "ed")
    then [Print (lit "Pattern: Removed 'ed' suffix")]
    else if bool_decide (word = stem ++ lit "er")
    then [Print (lit "Pattern: Removed 'er' suffix")]
    else if bool_decide (word = stem ++ lit "est")
    then [Print (lit "Pattern: Removed 'est' suffix")]
    else if bool_decide (word = stem ++ lit "s")
    then [Print (lit "Pattern: Removed 's' suffix")]
    else if bool_decide (word = stem ++ lit "es")
    then [Print (lit "Pattern: Removed 'es' suffix")]
    else if bool_decide (word = stem ++ lit "ly")
    then [Print (lit "Pattern: Removed 'ly' suffix")]
    else [Print (lit "Pattern: Complex transformation")]
  else [].
Proof. unfold stemming_pattern. by rewrite !chain_branch. Qed.

Lemma stemming_pattern_nil (word stem : str) :
  stemming_pattern word stem = [] ↔ word = stem.
Proof.
  rewrite stemming_pattern_cases. split.
  - by repeat case_bool_decide.
  - intros ->. by rewrite bool_decide_eq_false_2 by (by intros []).
Qed.

Lemma stemming_pattern_length (word stem : str) :
  (length (stemming_pattern word stem) ≤ 1)%nat.
Proof.
  rewrite stemming_pattern_cases. repeat case_bool_decide; simpl; lia.
Qed.

(** X7.  The pattern analysis reports "Removed 'X' suffix", for each of the
    seven suffixes X it knows, exactly when the word is the stem followed by
    X: the report is never wrong, and no removal of one of these suffixes
    goes unreported or is attributed to another suffix. *)
Theorem X7_removed_suffix_reported_iff (word stem suffix : str) :
  suffix ∈ suffixes →
  stemming_pattern word stem = [removed_suffix_line suffix]
  ↔ word = stem ++ suffix.
Proof.
  intros Hin. rewrite stemming_pattern_cases.
  unfold suffixes in Hin. cbn [fmap list_fmap] in Hin.
  repeat (apply elem_of_cons in Hin as [->|Hin]);
    [..|by apply elem_of_nil in Hin].
  all: split;
    [ repeat case_bool_decide; intros Hline;
      first [assumption | by vm_compute in Hline]
    | intros ->; rewrite (bool_decide_eq_true_2 (_ ≠ stem))
        by (by apply app_ne_self);
      repeat case_bool_decide; by chain_contradiction ].
Qed.

Lemma X7_removed_suffix_reported_iff_witness :
  stemming_pattern (lit "goes") (lit "go") = [removed_suffix_line (lit "es")]
  ∧ stemming_pattern (lit "goes") (lit "goe") = [removed_suffix_line (lit "s")].
Proof.
  split.
  - apply (X7_removed_suffix_reported_iff (lit "goes") (lit "go") (lit "es"));
      [|reflexivity].
    unfold suffixes. cbn [fmap list_fmap]. do 6 right. left.
  - apply (X7_removed_suffix_reported_iff (lit "goes") (lit "goe") (lit "s"));
      [|reflexivity].
    unfold suffixes. cbn [fmap list_fmap]. do 5 right. left.
Defined.

(** X8.  "Complex transformation" is reported exactly when the stem differs
    from the word and the word is not the stem followed by one of the seven
    suffixes. *)
Theorem X8_complex_transformation_iff (word stem : str) :
  stemming_pattern word stem = [Print (lit "Pattern: Complex transformation")]
  ↔ word ≠ stem ∧ Forall (λ suffix, word ≠ stem ++ suffix) suffixes.
Proof.
  rewrite stemming_pattern_cases. split.
  - repeat case_bool_decide; intros Hline; try (by vm_compute in Hline).
    split; [done | by repeat constructor].
  - intros [Hne Hall]. unfold suffixes in Hall. cbn [fmap list_fmap] in Hall.
    repeat (apply Forall_cons in Hall as [? Hall]).
    by repeat case_bool_decide.
Qed.

Lemma X8_complex_transformation_iff_witness :
  stemming_pattern (lit "running") (lit "run")
  = [Print (lit "Pattern: Complex transformation")].
Proof.
  apply (X8_complex_transformation_iff (lit "running") (lit "run")).
  split; [discriminate | repeat constructor; discriminate].
Defined.

(** X9.  No pattern line is printed exactly when the stemmer returned the
    word unchanged. *)
Theorem X9_no_pattern_line_iff_unchanged (word stem : str) :
  stemming_pattern word stem = [] ↔ word = stem.
Proof. apply stemming_pattern_nil. Qed.

Lemma X9_no_pattern_line_iff_unchanged_witness :
  stemming_pattern (lit "run") (lit "run") = [].
Proof.
  apply (X9_no_pattern_line_iff_unchanged (lit "run") (lit "run")).
  reflexivity.
Defined.

(** X10.  With a stemmer type other than 'All', [update_stemming_analysis]
    raises nothing.  It prints the heading with the name of the stemmer, the
    word and the stem, and after them at most one pattern line, none exactly
    when the stemmer returned the word unchanged.  The stemmer is Porter for
    'Porter', Lancaster for 'Lancaster', and Snowball for every other type:
    an unknown type is not rejected. *)
Theorem X10_update_stemming_analysis_shape
    (T : tools) (analyze : list N → list output * option exception)
    (word stemmer_type : str) :
  stemmer_type ≠ lit "All" →
  ∃ name stem pattern,
    update_stemming_analysis T analyze word stemmer_type
    = ([ Print (nl ++ name ++ lit " Analysis:");
         Print (lit "Original: " ++ word);
         Print (lit "Stemmed: " ++ stem) ] ++ pattern, None)
    ∧ (length pattern ≤ 1)%nat
    ∧ (pattern = [] ↔ stem = word)
    ∧ (stemmer_type = lit "Porter"
         ∧ name = lit "Porter Stemmer" ∧ stem = porter_stem T word
       ∨ stemmer_type = lit "Lancaster"
         ∧ name = lit "Lancaster Stemmer" ∧ stem = lancaster_stem T word
       ∨ stemmer_type ≠ lit "Porter" ∧ stemmer_type ≠ lit "Lancaster"
         ∧ name = lit "Snowball Stemmer" ∧ stem = snowball_stem T word).
Proof.
  intros HAll. unfold update_stemming_analysis.
  rewrite bool_decide_eq_false_2 by done.
  repeat case_bool_decide; eexists _, _, _;
    (split; [reflexivity|]);
    (split; [apply stemming_pattern_length|]);
    (split; [rewrite stemming_pattern_nil; naive_solver|]);
    auto 10.
Qed.

Lemma X10_update_stemming_analysis_shape_witness :
  ∃ name stem pattern,
    update_stemming_analysis sample_tools (λ _, ([], None)) (lit "Running")
      (lit "porter")
    = ([ Print (nl ++ name ++ lit " Analysis:");
         Print (lit "Original: " ++ lit "Running");
         Print (lit "Stemmed: " ++ stem) ] ++ pattern, None)
    ∧ name = lit "Snowball Stemmer".
Proof.
  destruct (X10_update_stemming_analysis_shape sample_tools (λ _, ([], None))
              (lit "Running") (lit "porter"))
    as (name & stem & pattern & Hrun & _ & _ & Hwhich); [discriminate|].
  exists name, stem, pattern. split; [exact Hrun|].
  destruct Hwhich as [[Hp _]|[[Hl _]|(_ & _ & Hname & _)]];
    [discriminate Hp | discriminate Hl | exact Hname].
Defined.

(** ** The pattern explanation of [test_patterns] and
       [compare_stemming_patterns] *)

(** Splits on every test [endswith word _] and closes the cases where two
    suffixes with different last characters both match. *)
Ltac split_suffix_tests word :=
  repeat match goal with
    | |- context [endswith word ?s] =>
        let H := fresh "Hends" in
        destruct (endswith word s) eqn:H
    end;
  try (exfalso;
       match goal with
       | H1 : endswith word _ = true, H2 : endswith word _ = true |- _ =>
           apply endswith_last in H1; [|done];
           apply endswith_last in H2; [|done];
           rewrite H1 in H2; by vm_compute in H2
       end).

(** Settles, in each remaining case, which explanation lines are printed:
    none when no suffix matches, else the line of the one that does. *)
Ltac explanation_cases :=
  simpl; split; [lia|]; split;
  [ split;
    [ intros Hnil; first [discriminate Hnil | by repeat constructor]
    | intros Hall;
      first [ reflexivity
            | exfalso; repeat (apply Forall_cons in Hall as [? Hall]);
              congruence ] ]
  | let Hin := fresh "Hin" in
    let Hx := fresh "Hx" in
    intros ? Hin;
    repeat (apply elem_of_cons in Hin as [->|Hin]);
    [..|by apply elem_of_nil in Hin];
    (split; intros Hx;
     first [assumption | reflexivity | congruence | by vm_compute in Hx]) ].

Lemma size_stems_1 (a b c : str) :
  size (list_to_set (C := gset (list N)) [a; b; c]) = 1%nat ↔ a = b ∧ b = c.
Proof.
  split.
  - intros Hsize.
    split; apply (size_singleton_inv _ _ _ Hsize);
      rewrite elem_of_list_to_set, !elem_of_cons; auto.
  - intros [-> ->].
    rewrite <- (size_singleton (C := gset (list N)) c).
    f_equal. apply set_eq. intros stem.
    rewrite elem_of_list_to_set, elem_of_singleton, !elem_of_cons, elem_of_nil.
    tauto.
Qed.

Lemma ascii_upper_not_lowercase (c : N) :
  (0x61 <=? ascii_upper c) && (ascii_upper c <=? 0x7A) = false.
Proof.
  unfold ascii_upper.
  destruct (N.leb_spec 0x61 c), (N.leb_spec c 0x7A); simpl;
    apply andb_false_iff; rewrite !N.leb_gt; lia.
Qed.

(** An uppercased ASCII word ends with no suffix whose last character is a
    lowercase letter. *)
Lemma endswith_upper_lowercase_suffix (word suffix : str) :
  forallb is_ascii word = true →
  from_option (λ c, (0x61 <=? c) && (c <=? 0x7A)) false (last suffix) = true →
  endswith (upper word) suffix = false.
Proof.
  intros Hascii Hlast. unfold upper. rewrite Hascii.
  destruct (endswith (ascii_upper <$> word) suffix) eqn:Hends; [|done].
  apply endswith_last in Hends; [|by intros ->].
  rewrite <- Hends, fmap_last in Hlast.
  destruct (last word) as [d|]; simpl in Hlast; [|done].
  by rewrite ascii_upper_not_lowercase in Hlast.
Qed.

(** X11.  [test_patterns] shows nothing and fails when the parser fails
    (with the parser's exception) or returns a document without token (with
    [IndexError]).  When the parser returns a document with a token, it
    shows the table of the word, its Porter stem, its WordNet lemma and the
    lemma of the first token, then the heading of the explanation and the
    explanation: no line when the word ends with none of "ing", "ed", "s",
    "er", "est", and otherwise the one line of the suffix it ends with (no
    word ends with two of them). *)
Theorem X11_test_patterns_outcome (T : tools) (word : str) :
  (∀ e, nlp T word = Raise e → test_patterns T word = ([], Some e))
  ∧ (nlp T word = Return [] → test_patterns T word = ([], Some IndexError))
  ∧ (∀ lemma doc, nlp T word = Return (lemma :: doc) →
     ∃ explanation,
       test_patterns T word
       = (Display (lit "Result")
            [ (lit "Original", word);
              (lit "Porter Stem", porter_stem T word);
              (lit "NLTK Lemma", lemmatize T word);
              (lit "spaCy Lemma", lemma) ]
            :: Print (nl ++ lit "Pattern Explanation:") :: explanation, None)
       ∧ (length explanation ≤ 1)%nat
       ∧ (explanation = []
          ↔ Forall (λ suffix, endswith word suffix = false)
              [lit "ing"; lit "ed"; lit "s"; lit "er"; lit "est"])
       ∧ (∀ suffix,
            suffix ∈ [lit "ing"; lit "ed"; lit "s"; lit "er"; lit "est"] →
            endswith word suffix = true
            ↔ explanation = [explanation_line suffix])).
Proof.
  unfold test_patterns, first_lemma. split; [|split].
  - by intros e ->.
  - by intros ->.
  - intros lemma doc ->. eexists. split; [reflexivity|].
    split_suffix_tests word; explanation_cases.
Qed.

Lemma X11_test_patterns_outcome_witness :
  test_patterns sample_tools [0xDC00] = ([], Some UnicodeEncodeError)
  ∧ test_patterns sample_tools [] = ([], Some IndexError)
  ∧ test_patterns sample_tools (lit "cats")
    = ([ Display (lit "Result")
           [ (lit "Original", lit "cats"); (lit "Porter Stem", lit "cat");
             (lit "NLTK Lemma", lit "cats"); (lit "spaCy Lemma", lit "cats") ];
         Print (nl ++ lit "Pattern Explanation:");
         explanation_line (lit "s") ], None).
Proof.
  split; [|split].
  - apply (proj1 (X11_test_patterns_outcome sample_tools [0xDC00])).
    reflexivity.
  - apply (proj1 (proj2 (X11_test_patterns_outcome sample_tools []))).
    reflexivity.
  - destruct (proj2 (proj2 (X11_test_patterns_outcome sample_tools (lit "cats")))
                (lit "cats") [] eq_refl)
      as (explanation & Hrun & _ & _ & Hline).
    rewrite Hrun. do 3 f_equal.
    apply (Hline (lit "s")); [do 2 right; left | reflexivity].
Defined.

(** X12.  [compare_stemming_patterns] shows the table of the three stems
    and the heading of the analysis, then the verdict: the one line "All
    stemmers produced the same result" when the three stems are equal, and
    otherwise the line "Different stemmers produced different results:"
    followed by one line for each stemmer with its stem.  After the heading
    of the explanation comes the explanation: no line when the word ends
    with none of "ing", "ed", "s", "er", "est", "ly", and otherwise the one
    line of the suffix it ends with. *)
Theorem X12_compare_output_shape (T : tools) (word : str) :
  ∃ verdict explanation,
    compare_stemming_patterns T word
    = Display (lit "Stemmed Result")
        [ (lit "Porter", porter_stem T word);
          (lit "Lancaster", lancaster_stem T word);
          (lit "Snowball", snowball_stem T word) ]
        :: Print (nl ++ lit "Pattern Analysis:")
        :: verdict ++ Print (nl ++ lit "Pattern Explanation:") :: explanation
    ∧ (porter_stem T word = lancaster_stem T word
       ∧ lancaster_stem T word = snowball_stem T word →
       verdict = [Print (lit "All stemmers produced the same result")])
    ∧ (¬ (porter_stem T word = lancaster_stem T word
          ∧ lancaster_stem T word = snowball_stem T word) →
       verdict =
         [ Print (lit "Different stemmers produced different results:");
           Print (lit "- Porter: " ++ porter_stem T word);
           Print (lit "- Lancaster: " ++ lancaster_stem T word);
           Print (lit "- Snowball: " ++ snowball_stem T word) ])
    ∧ (length explanation ≤ 1)%nat
    ∧ (explanation = []
       ↔ Forall (λ suffix, endswith word suffix = false)
           [lit "ing"; lit "ed"; lit "s"; lit "er"; lit "est"; lit "ly"])
    ∧ (∀ suffix,
         suffix ∈ [lit "ing"; lit "ed"; lit "s"; lit "er"; lit "est"; lit "ly"] →
         endswith word suffix = true
         ↔ explanation = [explanation_line suffix]).
Proof.
  unfold compare_stemming_patterns. cbn [fmap list_fmap snd].
  eexists _, _. split; [reflexivity|].
  split; [|split].
  - intros Hsame%size_stems_1. by rewrite bool_decide_eq_true_2.
  - intros Hdiff. rewrite bool_decide_eq_false_2; [done|].
    by rewrite size_stems_1.
  - split_suffix_tests word; explanation_cases.
Qed.

Lemma X12_compare_output_shape_witness :
  compare_stemming_patterns sample_tools (lit "cats")
  = [ Display (lit "Stemmed Result")
        [ (lit "Porter", lit "cat"); (lit "Lancaster", lit "cat");
          (lit "Snowball", lit "cats") ];
      Print (nl ++ lit "Pattern Analysis:");
      Print (lit "Different stemmers produced different results:");
      Print (lit "- Porter: cat");
      Print (lit "- Lancaster: cat");
      Print (lit "- Snowball: cats");
      Print (nl ++ lit "Pattern Explanation:");
      explanation_line (lit "s") ].
Proof.
  destruct (X12_compare_output_shape sample_tools (lit "cats"))
    as (verdict & explanation & Hrun & _ & Hdiff & _ & _ & Hline).
  rewrite Hrun, Hdiff, (proj1 (Hline (lit "s") ltac:(do 2 right; left)));
    [reflexivity | reflexivity |].
  intros [_ Hls]. vm_compute in Hls. discriminate Hls.
Defined.

(** X13.  [compare_stemming_patterns] prints "All stemmers produced the
    same result" exactly when the three stemmers return the same stem. *)
Theorem X13_all_same_iff (T : tools) (word : str) :
  Print (lit "All stemmers produced the same result")
    ∈ compare_stemming_patterns T word
  ↔ porter_stem T word = lancaster_stem T word
    ∧ lancaster_stem T word = snowball_stem T word.
Proof.
  unfold compare_stemming_patterns. cbn [fmap list_fmap snd].
  case_bool_decide as Hsize; split.
  - intros _.
    split; apply (size_singleton_inv _ _ _ Hsize);
      rewrite elem_of_list_to_set, !elem_of_cons; auto.
  - intros _. do 2 right. left.
  - intros Hin. exfalso.
    repeat match type of Hin with
    | context [endswith word ?s] => destruct (endswith word s)
    end;
    repeat (apply elem_of_cons in Hin as [Hin|Hin];
            [by vm_compute in Hin|]);
    by apply elem_of_nil in Hin.
  - intros [Hpl Hls]. destruct Hsize. rewrite Hpl, Hls.
    rewrite <- (size_singleton (C := gset (list N)) (snowball_stem T word)).
    f_equal. apply set_eq. intros stem.
    rewrite elem_of_list_to_set, elem_of_singleton, !elem_of_cons, elem_of_nil.
    tauto.
Qed.

Lemma X13_all_same_iff_witness :
  Print (lit "All stemmers produced the same result")
    ∈ compare_stemming_patterns sample_tools (lit "dog")
  ∧ ¬ Print (lit "All stemmers produced the same result")
        ∈ compare_stemming_patterns sample_tools (lit "cats").
Proof.
  split.
  - apply (proj2 (X13_all_same_iff sample_tools (lit "dog"))).
    split; reflexivity.
  - intros Hin.
    apply (proj1 (X13_all_same_iff sample_tools (lit "cats"))) in Hin.
    destruct Hin as [_ Hls]. vm_compute in Hls. discriminate Hls.
Defined.

(** X14.  The explanation tests the word as typed, not lowercased: for an
    uppercased ASCII word, [compare_stemming_patterns] prints no
    explanation line at all, its output ends with the heading. *)
Theorem X14_no_explanation_for_uppercase (T : tools) (word : str) :
  Forall (λ c, c < 0x80) word →
  last (compare_stemming_patterns T (upper word))
  = Some (Print (nl ++ lit "Pattern Explanation:")).
Proof.
  intros Hascii.
  assert (forallb is_ascii word = true) as Hb.
  { induction Hascii as [|c s Hc _ IH]; cbn [forallb]; [done|].
    rewrite IH, andb_true_r. by apply N.ltb_lt. }
  unfold compare_stemming_patterns.
  rewrite !(endswith_upper_lowercase_suffix word) by done.
  rewrite !app_nil_r, !last_app. done.
Qed.

Lemma X14_no_explanation_for_uppercase_witness :
  last (compare_stemming_patterns sample_tools (upper (lit "running")))
  = Some (Print (nl ++ lit "Pattern Explanation:"))
  ∧ last (compare_stemming_patterns sample_tools (lit "running"))
    = Some (Print (lit "- Removed 'ing' suffix")).
Proof.
  split; [|reflexivity].
  apply (X14_no_explanation_for_uppercase sample_tools (lit "running")).
  repeat constructor.
Defined.

(** ** [get_word_transformations] and [update_transformations] *)

(** X15.  [get_word_transformations] raises exactly when the parser raises
    (the same exception) or returns a document without token
    ([IndexError]).  It returns exactly when the parser returns a document
    with a token, and then the six entries 'Original' (the word as typed),
    'Porter Stemmer', 'Lancaster Stemmer', 'Snowball Stemmer', 'NLTK
    Lemmatizer' and 'spaCy Lemmatizer' (the lemma of the first token) with
    the results of the tools, in this order: its keys are 'Original' and the
    options of the drop-down list other than 'All'. *)
Theorem X15_get_word_transformations_outcome (T : tools) (word : str) :
  (∀ e, get_word_transformations T word = Raise e
        ↔ nlp T word = Raise e ∨ nlp T word = Return [] ∧ e = IndexError)
  ∧ (∀ d, get_word_transformations T word = Return d
          ↔ ∃ lemma doc,
              nlp T word = Return (lemma :: doc)
              ∧ d = [ (lit "Original", word);
                      (lit "Porter Stemmer", porter_stem T word);
                      (lit "Lancaster Stemmer", lancaster_stem T word);
                      (lit "Snowball Stemmer", snowball_stem T word);
                      (lit "NLTK Lemmatizer", lemmatize T word);
                      (lit "spaCy Lemmatizer", lemma) ])
  ∧ (∀ d, get_word_transformations T word = Return d →
          d.*1 = lit "Original" :: tail method_options).
Proof.
  unfold get_word_transformations, first_lemma.
  destruct (nlp T word) as [[|lemma doc]|e']; (split; [|split]).
  - intros e. split; [intros [= <-]; auto | by intros [|[_ ->]]].
  - intros d. split; [done | by intros (? & ? & ? & _)].
  - done.
  - intros e. split; [done | by intros [|[? _]]].
  - intros d. split; [intros [= <-]; eauto | by intros (? & ? & [= <- _] & ->)].
  - by intros d [= <-].
  - intros e. split; [intros [= <-]; auto | by intros [[= <-]|[? _]]].
  - intros d. split; [done | by intros (? & ? & ? & _)].
  - done.
Qed.

Lemma X15_get_word_transformations_outcome_witness :
  get_word_transformations sample_tools [0xDC00] = Raise UnicodeEncodeError
  ∧ get_word_transformations sample_tools [] = Raise IndexError
  ∧ get_word_transformations sample_tools (lit "Cats")
    = Return [ (lit "Original", lit "Cats"); (lit "Porter Stemmer", lit "cat");
               (lit "Lancaster Stemmer", lit "cat");
               (lit "Snowball Stemmer", lit "cats");
               (lit "NLTK Lemmatizer", lit "cats");
               (lit "spaCy Lemmatizer", lit "cats") ].
Proof.
  split; [|split].
  - apply (proj1 (X15_get_word_transformations_outcome sample_tools [0xDC00])).
    left. reflexivity.
  - apply (proj1 (X15_get_word_transformations_outcome sample_tools [])).
    right. split; reflexivity.
  - apply (proj1 (proj2 (X15_get_word_transformations_outcome sample_tools
                           (lit "Cats")))).
    exists (lit "cats"), []. split; reflexivity.
Defined.

(** X16.  When the parser returns a document with a token, each option of
    the drop-down list other than 'All' is a key of the dictionary:
    [update_transformations] raises nothing and prints the word and then
    the result of the selected tool (the stem of the selected stemmer, the
    WordNet lemma, or the lemma of the first token). *)
Theorem X16_dropdown_methods_are_keys
    (T : tools) (visualize : list N → list output * option exception)
    (word lemma : str) (doc : list str) :
  nlp T word = Return (lemma :: doc) →
  [ lit "Porter Stemmer"; lit "Lancaster Stemmer"; lit "Snowball Stemmer";
    lit "NLTK Lemmatizer"; lit "spaCy Lemmatizer" ] = tail method_options
  ∧ ∀ method value,
      (method, value) ∈
        [ (lit "Porter Stemmer", porter_stem T word);
          (lit "Lancaster Stemmer", lancaster_stem T word);
          (lit "Snowball Stemmer", snowball_stem T word);
          (lit "NLTK Lemmatizer", lemmatize T word);
          (lit "spaCy Lemmatizer", lemma) ] →
      update_transformations T visualize word method
      = ([ Print (nl ++ lit "Original word: " ++ word);
           Print (method ++ lit " result: " ++ value) ], None).
Proof.
  intros Hdoc. split; [done|]. intros method value Hin.
  unfold update_transformations, get_word_transformations, first_lemma.
  rewrite Hdoc.
  repeat (apply elem_of_cons in Hin as [[= -> ->]|Hin]);
    [done..|by apply elem_of_nil in Hin].
Qed.

Lemma X16_dropdown_methods_are_keys_witness :
  update_transformations sample_tools (λ _, ([], None)) (lit "Cats")
    (lit "Porter Stemmer")
  = ([ Print (nl ++ lit "Original word: " ++ lit "Cats");
       Print (lit "Porter Stemmer" ++ lit " result: " ++ lit "cat") ], None).
Proof.
  apply (proj2 (X16_dropdown_methods_are_keys sample_tools (λ _, ([], None))
                  (lit "Cats") (lit "cats") [] eq_refl)).
  left.
Defined.

(** X17.  With a method that is neither 'All' nor one of the six keys, and
    a document with a token, [update_transformations] prints the word and
    then fails with [KeyError] on the method. *)
Theorem X17_unknown_method_key_error
    (T : tools) (visualize : list N → list output * option exception)
    (word method lemma : str) (doc : list str) :
  method ∉ lit "Original" :: method_options →
  nlp T word = Return (lemma :: doc) →
  update_transformations T visualize word method
  = ([Print (nl ++ lit "Original word: " ++ word)], Some (KeyError method)).
Proof.
  intros Hnotin Hdoc. unfold update_transformations.
  unfold method_options in Hnotin. cbn [fmap list_fmap] in Hnotin.
  repeat (apply not_elem_of_cons in Hnotin as [? Hnotin]).
  rewrite bool_decide_eq_false_2 by done.
  unfold get_word_transformations, first_lemma. rewrite Hdoc.
  cbn [dict_getitem]. by rewrite !bool_decide_eq_false_2.
Qed.

Lemma X17_unknown_method_key_error_witness :
  update_transformations sample_tools (λ _, ([], None)) (lit "Cats")
    (lit "porter stemmer")
  = ([Print (nl ++ lit "Original word: " ++ lit "Cats")],
     Some (KeyError (lit "porter stemmer"))).
Proof.
  apply (X17_unknown_method_key_error sample_tools (λ _, ([], None))
           (lit "Cats") (lit "porter stemmer") (lit "cats") []).
  - unfold method_options. cbn [fmap list_fmap].
    repeat (apply not_elem_of_cons; split; [discriminate|]).
    apply not_elem_of_nil.
  - reflexivity.
Defined.

(** X18.  When the parsed document has no token, [update_transformations]
    fails with [IndexError] before printing anything, whatever method other
    than 'All' is selected, also one that does not use the parser: the
    whole dictionary is built before the method is looked up. *)
Theorem X18_empty_document_fails_every_method
    (T : tools) (visualize : list N → list output * option exception)
    (word method : str) :
  method ≠ lit "All" → nlp T word = Return [] →
  update_transformations T visualize word method = ([], Some IndexError).
Proof.
  intros HAll Hdoc. unfold update_transformations.
  rewrite bool_decide_eq_false_2 by done.
  unfold get_word_transformations, first_lemma. by rewrite Hdoc.
Qed.

Lemma X18_empty_document_fails_every_method_witness :
  update_transformations sample_tools (λ _, ([], None)) []
    (lit "Porter Stemmer")
  = ([], Some IndexError).
Proof.
  apply (X18_empty_document_fails_every_method sample_tools (λ _, ([], None))
           [] (lit "Porter Stemmer")).
  - discriminate.
  - reflexivity.
Defined.

(** ** [update_word_forms] *)

(** X19.  The two lines [update_word_forms] prints for the notebook's own
    stemmer and lemmatizer do not depend on the case of the word: they are
    the same for the word and for its lowercase form, while the first line
    echoes the word as typed. *)
Theorem X19_custom_lines_ignore_case (T : tools) (word : str) :
  update_word_forms T word !! 0%nat = Some (Print (lit "Original word: " ++ word))
  ∧ update_word_forms T word !! 1%nat = update_word_forms T (lower word) !! 1%nat
  ∧ update_word_forms T word !! 2%nat = update_word_forms T (lower word) !! 2%nat.
Proof.
  unfold update_word_forms, stem_word_custom, lemmatize_word_custom. simpl.
  by rewrite lower_idemp.
Qed.
